(** * Generic class-based views of [mayan.apps.common.generics]

    A shallow embedding of the view classes of
    [mayan/apps/common/generics.py] and the properties their methods
    have.  The views are glue over a web framework: every method of the
    framework, of the sibling modules ([mixins], [forms], [settings],
    [literals]) and of the subclasses that a view calls is a field of the
    record standing for [self], acting on an abstract world [W] (database,
    request cycle, template engine).  What the module itself decides, the
    order of the calls, the handling of exceptions, the flashed messages
    and the value returned, is written out as in the source. *)

From Stdlib Require Import String Ascii List ZArith Bool Lia.
From Stdlib Require Import DecimalString Permutation Sorted.
Import ListNotations.
Open Scope string_scope.
Open Scope list_scope.

Set Implicit Arguments.

(** ** The fragment of the Python run time the views rely on *)

Module Py.

(** Exceptions.  Every constructor but the last is an instance of
    [Exception]; [BaseException_] stands for the few classes
    ([KeyboardInterrupt], [SystemExit], [GeneratorExit]) that derive
    from [BaseException] only and that [except Exception] lets through. *)
Inductive exn : Type :=
| ImproperlyConfigured (msg : string)
| ValidationError (messages : list string)
| NotImplementedError
| AttributeError (name : string)
| KeyError (key : string)
| ValueError (msg : string)
| Exception_ (cls : string) (msg : string)
| BaseException_ (cls : string) (msg : string).

(** [isinstance(e, Exception)] *)
Definition is_Exception (e : exn) : bool :=
  match e with
  | BaseException_ _ _ => false
  | _ => true
  end.

(** [isinstance(e, ImproperlyConfigured)] *)
Definition is_ImproperlyConfigured (e : exn) : bool :=
  match e with
  | ImproperlyConfigured _ => true
  | _ => false
  end.

(** [isinstance(e, ValidationError)] *)
Definition is_ValidationError (e : exn) : bool :=
  match e with
  | ValidationError _ => true
  | _ => false
  end.

(** ['\n'.join(parts)] and friends *)
Fixpoint join (sep : string) (parts : list string) : string :=
  match parts with
  | [] => ""
  | [p] => p
  | p :: rest => (p ++ sep ++ join sep rest)%string
  end.

(** A text built by [_(template) % arguments]: the template goes through
    the translation catalogue before the arguments are interpolated, so
    the text is kept as the pair the code builds.  An argument is a
    string or an exception (interpolated through its [str]). *)
Inductive fmt_value : Type :=
| Str (s : string)
| Exn (e : exn).

Inductive fmt_arg : Type :=
| Named (key : string) (value : fmt_value)
| Positional (value : fmt_value).

Inductive text : Type :=
| Plain (s : string)
| Format (template : string) (arguments : list fmt_arg).

(** Truth value of a text used as a condition ([x or y]). *)
Definition text_truthy (t : option text) : bool :=
  match t with
  | None => false
  | Some (Plain "") => false
  | Some _ => true
  end.

(** Levels of [django.contrib.messages]. *)
Inductive level : Type := ERROR | SUCCESS.

(** What the view does to the outside, in the order it does it: a call
    of a method that is not defined in [generics.py], or a message
    handed to the messages framework. *)
Inductive event : Type :=
| Called (method : string) (args : list string)
| Flashed (lvl : level) (message : text).

Inductive result (A : Type) : Type :=
| Ret (a : A)
| Raise (e : exn).
Arguments Ret {A} a.
Arguments Raise {A} e.

(** The state a method runs in: the world outside the view, the
    attributes of [self] the module assigns to, and what the view has
    done so far. *)
Record state (W S : Type) : Type :=
  State { world : W; self : S; trace : list event }.

(** A method of the module, and a method it only calls. *)
Definition M (W S A : Type) : Type := state W S -> result A * state W S.
Definition ext (W A : Type) : Type := W -> result A * W.

Section Monad.
Context {W S : Type}.
#[local] Abbreviation M := (M W S).

Definition ret {A} (a : A) : M A := fun s => (Ret a, s).

Definition bind {A B} (m : M A) (k : A -> M B) : M B :=
  fun s =>
    match m s with
    | (Ret a, s') => k a s'
    | (Raise e, s') => (Raise e, s')
    end.

(** [raise e] *)
Definition raise {A} (e : exn) : M A := fun s => (Raise e, s).

(** [self.<attribute>] and [self.<attribute> = ...] *)
Definition get_self : M S := fun s => (Ret (self s), s).

Definition set_self (f : S -> S) : M unit :=
  fun s =>
    (Ret tt, {| world := world s; self := f (self s); trace := trace s |}).

(** [try: body / except <class> as e: handler e / else: orelse].  What
    [body] did before it raised stays done. *)
Definition try_except_else {A B} (body : M A) (catches : exn -> bool)
    (handler : exn -> M B) (orelse : A -> M B) : M B :=
  fun s =>
    match body s with
    | (Ret a, s') => orelse a s'
    | (Raise e, s') =>
        if catches e then handler e s' else (Raise e, s')
    end.

Definition try_except {A} (body : M A) (catches : exn -> bool)
    (handler : exn -> M A) : M A :=
  try_except_else body catches handler ret.

Definition log (e : event) : M unit :=
  fun s =>
    (Ret tt,
     {| world := world s; self := self s; trace := trace s ++ [e] |}).

(** A call of a method defined elsewhere, noted in the trace under the
    name the caller knows it by. *)
Definition call {A} (method : string) (args : list string)
    (f : ext W A) : M A :=
  fun s =>
    let (r, w) := f (world s) in
    (r, {| world := w; self := self s;
           trace := trace s ++ [Called method args] |}).

(** [messages.error(...)], [messages.success(...)] *)
Definition flash (lvl : level) (message : text) : M unit :=
  log (Flashed lvl message).

(** [for x in xs: body x] *)
Fixpoint for_each {A} (xs : list A) (body : A -> M unit) : M unit :=
  match xs with
  | [] => ret tt
  | x :: rest => bind (body x) (fun _ => for_each rest body)
  end.

(** [[f(x) for x in xs]] *)
Fixpoint comprehension {A B} (xs : list A) (f : A -> M B)
    : M (list B) :=
  match xs with
  | [] => ret []
  | x :: rest =>
      bind (f x) (fun y =>
      bind (comprehension rest f) (fun ys => ret (y :: ys)))
  end.
End Monad.

Module Notations.
Declare Scope py_scope.
Delimit Scope py_scope with py.
Notation "x <- m ;; k" := (bind m (fun x => k))
  (at level 100, m at next level, right associativity) : py_scope.
Notation "m ;; k" := (bind m (fun _ => k))
  (at level 100, right associativity) : py_scope.
End Notations.

(** The arguments of the calls of [method] in a trace, oldest first. *)
Definition calls_of (method : string) (events : list event)
    : list (list string) :=
  flat_map (fun e =>
              match e with
              | Called m args => if String.eqb m method then [args] else []
              | Flashed _ _ => []
              end)
           events.

(** *** Dictionaries

    A [dict] is the list of its items in iteration order; the keys the
    views use are strings. *)
Definition dict (V : Type) : Type := list (string * V).

(** [d.get(key)] on a dict with one item per key *)
Fixpoint dict_get {V} (d : dict V) (key : string) : option V :=
  match d with
  | [] => None
  | (k, v) :: rest => if String.eqb k key then Some v else dict_get rest key
  end.

(** [dict(pairs)[key]]: of two pairs with the same key the later one
    stays. *)
Fixpoint dict_of_pairs_get {V} (pairs : list (string * V)) (key : string)
    : option V :=
  match pairs with
  | [] => None
  | (k, v) :: rest =>
      match dict_of_pairs_get rest key with
      | Some v' => Some v'
      | None => if String.eqb k key then Some v else None
      end
  end.

(** *** [sorted(xs, key=key)] on string keys

    [sorted] is stable, and the stable sort of a list under a total
    preorder is unique; it is written here as the insertion sort that
    puts an element before the first one that is not smaller.  Strings
    compare position by position on their code units. *)
Fixpoint insert_sorted {A} (key : A -> string) (x : A) (l : list A)
    : list A :=
  match l with
  | [] => [x]
  | y :: l' =>
      if String.leb (key x) (key y) then x :: y :: l'
      else y :: insert_sorted key x l'
  end.

Definition sorted {A} (key : A -> string) (xs : list A) : list A :=
  fold_right (insert_sorted key) [] xs.

(** [key(x) <= key(y)] *)
Definition key_le {A} (key : A -> string) (x y : A) : Prop :=
  String.leb (key x) (key y) = true.

(** [d[key] = value]: a new key goes last, a known key keeps its place. *)
Fixpoint dict_set {V} (d : dict V) (key : string) (value : V) : dict V :=
  match d with
  | [] => [(key, value)]
  | (k, v) :: rest =>
      if String.eqb k key then (k, value) :: rest
      else (k, v) :: dict_set rest key value
  end.

(** [dict(pairs)] *)
Definition dict_of_pairs {V} (pairs : list (string * V)) : dict V :=
  fold_left (fun d kv => dict_set d (fst kv) (snd kv)) pairs [].

(** [d.keys()], [d.values()] *)
Definition keys {V} (d : dict V) : list string := map fst d.
Definition values {V} (d : dict V) : list V := map snd d.

(** A value held in a template context. *)
Inductive value (O : Type) : Type :=
| VBool (b : bool)
| VOther (o : O).
Arguments VBool {O} b.
Arguments VOther {O} o.

(** What a view answers: [HttpResponseRedirect(redirect_to=...)], or a
    response made by the framework or by a subclass. *)
Inductive response (R : Type) : Type :=
| HttpResponseRedirect (redirect_to : string)
| Response (r : R).
Arguments HttpResponseRedirect {R} redirect_to.
Arguments Response {R} r.

(** [request.GET]: the pairs of the query string, in order.
    [QueryDict.get(key)] is the last value given for the key, [None]
    when there is none. *)
Definition QueryDict : Type := list (string * string).

Definition QueryDict_get (q : QueryDict) (key : string) : option string :=
  dict_of_pairs_get q key.

(** Truth value of a string or [None] used as a condition. *)
Definition str_truthy (x : option string) : bool :=
  match x with
  | None | Some "" => false
  | Some _ => true
  end.

(** [x == y] where [x] is a string or [None] and [y] a string. *)
Definition str_eq (x : option string) (y : string) : bool :=
  match x with
  | Some x' => String.eqb x' y
  | None => false
  end.

(** *** Classes

    A function object is known by the place of its [def]; a class by
    its name, the functions of its body and the classes that follow it
    in its [__mro__]. *)
Inductive function : Type := Function (qualname : string).

Definition function_eqb (f g : function) : bool :=
  match f, g with
  | Function a, Function b => String.eqb a b
  end.

#[warnings="-register-all"] Inductive pyclass : Type :=
| Class (name : string) (namespace : dict function)
        (mro_tail : list pyclass).

Definition cls_name (c : pyclass) : string :=
  match c with Class name _ _ => name end.

Definition cls_namespace (c : pyclass) : dict function :=
  match c with Class _ namespace _ => namespace end.

(** [cls.mro()] *)
Definition mro (c : pyclass) : list pyclass :=
  match c with Class _ _ mro_tail => c :: mro_tail end.

(** The first class of a linearisation whose body has the attribute. *)
Fixpoint lookup_mro (classes : list pyclass) (attr : string)
    : option function :=
  match classes with
  | [] => None
  | c :: rest =>
      match dict_get (cls_namespace c) attr with
      | Some f => Some f
      | None => lookup_mro rest attr
      end
  end.

(** [cls.<attr>] *)
Definition class_getattr (c : pyclass) (attr : string) : option function :=
  lookup_mro (mro c) attr.

(** ['%s' % n] for an integer *)
Definition str_int (n : Z) : string := NilZero.string_of_int (Z.to_int n).

End Py.

Import Py Py.Notations.
Open Scope py_scope.

(** ** [AssignRemoveView] *)

Module AssignRemoveView.

(** A primary key, interpolated by ['%s']. *)
Inductive pk_value : Type :=
| PkInt (n : Z)
| PkStr (s : string).

Definition str_pk (pk : pk_value) : string :=
  match pk with
  | PkInt n => str_int n
  | PkStr s => s
  end.

(** What [generate_choices] reads of a model instance:
    [ContentType.objects.get_for_model(model=choice).model], [choice.pk]
    and [force_text(choice)]. *)
Record model_instance : Type := Instance {
  ct_model : string;
  pk : pk_value;
  force_text : string
}.

(** [generate_choices(choices)], lines 72-82. *)
Definition generate_choices (choices : list model_instance)
    : list (string * string) :=
  let results :=
    fold_left
      (fun results choice =>
         let ct_model := ct_model choice in
         let label := force_text choice in
         results ++ [((ct_model ++ "," ++ str_pk (pk choice))%string, label)])
      choices [] in
  (* Sort results by the label not the key value *)
  sorted snd results.

(** The items a list method returns: pairs of key and label, or, in a
    view with [grouped = True], groups of such pairs under a name. *)
Definition items (grouped : bool) : Type :=
  if grouped then list (string * list (string * string))
  else list (string * string).

(** [selection_obj]: the selected key, or the object it decodes to. *)
Inductive selection_obj (Obj : Type) : Type :=
| Key (selection : string)
| Object (obj : Obj).
Arguments Key {Obj} selection.
Arguments Object {Obj} obj.

(** [str.split(sep)] for a one-character separator *)
Fixpoint split (sep : ascii) (s : string) : list string :=
  match s with
  | EmptyString => [""]
  | String c rest =>
      if Ascii.eqb c sep then "" :: split sep rest
      else
        match split sep rest with
        | [] => [String c ""]
        | part :: parts => String c part :: parts
        end
  end.

Section View.
Context {W Obj Form : Type}.

(** [self], [settings] and the request, as far as [process_form] goes. *)
Record view : Type := View {
  decode_content_type : bool;
  grouped : bool;
  (** [settings.DEBUG] *)
  DEBUG : bool;
  (** [self.request.POST.keys()] *)
  POST_keys : list string;
  (** [ChoiceForm(self.request.POST, choices=..., prefix=...)] *)
  ChoiceForm : items grouped -> string -> ext W Form;
  (** [form.is_valid()] *)
  is_valid : Form -> ext W bool;
  (** [form.cleaned_data['selection']] *)
  cleaned_data_selection : Form -> list string;
  (** [ContentType.objects.get(model=model)
        .get_object_for_this_type(pk=pk)] *)
  get_object_for_this_type : string -> string -> ext W Obj
}.

(** [flat_list] of lines 130-135, from what [items_function()]
    returned: the pairs of all the groups in a grouped view, the items
    themselves otherwise. *)
Definition flatten (grouped : bool) : items grouped -> list (string * string) :=
  if grouped as g return items g -> list (string * string) then
    fun groups =>
      fold_left (fun flat_list group => flat_list ++ snd group) groups []
  else fun flat_list => flat_list.

Definition get_flat_list (v : view)
    (items_function : ext W (items (grouped v)))
    : M W unit (list (string * string)) :=
  choices <- call "items_function" [] items_function ;;
  ret (flatten (grouped v) choices).

(** [selection_obj] of lines 138-144. *)
Definition get_selection_obj (v : view) (selection : string)
    : M W unit (selection_obj Obj) :=
  if decode_content_type v then
    match split "," selection with
    | [model; pk] =>
        obj <- call "get_object_for_this_type" [model; pk]
                 (get_object_for_this_type v model pk) ;;
        ret (Object obj)
    | _ => raise (ValueError "unpack")
    end
  else ret (Key selection).

Definition unable_to_transfer (label : string) : text :=
  Format "Unable to transfer selection: %s." [Positional (Str label)].

(** The body of the loop over the selection, lines 130-155. *)
Definition transfer (v : view)
    (items_function : ext W (items (grouped v)))
    (action_function : selection_obj Obj -> ext W unit)
    (selection : string) : M W unit unit :=
  flat_list <- get_flat_list v items_function ;;
  label <- match dict_of_pairs_get flat_list selection with
           | Some label => ret label
           | None => raise (KeyError selection)
           end ;;
  selection_obj <- get_selection_obj v selection ;;
  try_except
    (call "action_function" [selection] (action_function selection_obj))
    is_Exception
    (fun e =>
       if DEBUG v then raise e
       else flash ERROR (unable_to_transfer label)).

(** [process_form(self, prefix, items_function, action_function)],
    lines 122-155. *)
Definition process_form (v : view) (prefix : string)
    (items_function : ext W (items (grouped v)))
    (action_function : selection_obj Obj -> ext W unit)
    : M W unit unit :=
  if existsb (String.eqb (prefix ++ "-submit")%string) (POST_keys v) then
    choices <- call "items_function" [] items_function ;;
    form <- call "ChoiceForm" [prefix] (ChoiceForm v choices prefix) ;;
    valid <- call "is_valid" [prefix] (is_valid v form) ;;
    if valid then
      for_each (cleaned_data_selection v form)
               (transfer v items_function action_function)
    else ret tt
  else ret tt.
End View.
Arguments view : clear implicits.

End AssignRemoveView.

(** ** The views that guard [get_queryset]

    Seven classes carry the same [__init__] and the same [try]/[except]
    in [get_queryset], each under its own name. *)

Module Guarded.

Inductive guarded : Type :=
| MultipleObjectDownloadView
| SingleObjectDownloadView
| MultipleObjectFormActionView
| MultipleObjectConfirmActionView
| SingleObjectDeleteView
| SingleObjectDetailView
| SingleObjectListView.

Definition guarded_name (g : guarded) : string :=
  match g with
  | MultipleObjectDownloadView => "MultipleObjectDownloadView"
  | SingleObjectDownloadView => "SingleObjectDownloadView"
  | MultipleObjectFormActionView => "MultipleObjectFormActionView"
  | MultipleObjectConfirmActionView => "MultipleObjectConfirmActionView"
  | SingleObjectDeleteView => "SingleObjectDeleteView"
  | SingleObjectDetailView => "SingleObjectDetailView"
  | SingleObjectListView => "SingleObjectListView"
  end.

(** The methods each class body defines. *)
Definition method_names (g : guarded) : list string :=
  match g with
  | MultipleObjectDownloadView => ["__init__"; "get_queryset"]
  | SingleObjectDownloadView => ["__init__"; "get_queryset"]
  | MultipleObjectFormActionView =>
      ["__init__"; "form_valid"; "get_queryset"]
  | MultipleObjectConfirmActionView =>
      ["__init__"; "get_queryset"; "post"]
  | SingleObjectDeleteView =>
      ["__init__"; "delete"; "get_context_data"; "get_queryset"]
  | SingleObjectDetailView =>
      ["__init__"; "get_context_data"; "get_queryset"]
  | SingleObjectListView =>
      ["__init__"; "get_context_data"; "get_sort_field"; "get_sort_icon";
       "get_sort_order"; "get_paginate_by"; "get_queryset"]
  end.

Definition method (g : guarded) (name : string) : function :=
  Function (guarded_name g ++ "." ++ name)%string.

(** The class object, given the linearisation of its bases (mixins and
    framework classes, none of them in [generics.py]). *)
Definition guarded_class (g : guarded) (bases : list pyclass) : pyclass :=
  Class (guarded_name g)
        (map (fun name => (name, method g name)) (method_names g))
        bases.

Section View.
Context {W Queryset V : Type}.

(** From [.literals] and [.settings]. *)
Record imports : Type := Imports {
  TEXT_SORT_FIELD_PARAMETER : string;
  TEXT_SORT_ORDER_PARAMETER : string;
  TEXT_SORT_ORDER_CHOICE_ASCENDING : string;
  (** [setting_paginate_by.value] *)
  setting_paginate_by_value : V
}.

(** What the methods use of [self] and do not assign to. *)
Record view : Type := View {
  (** [self.__class__] *)
  cls : pyclass;
  (** [super(<class>, self).__init__] with the arguments of the call *)
  super_init : ext W unit;
  (** [super(<class>, self).get_queryset()], which reads
      [self.queryset] *)
  super_get_queryset : option Queryset -> ext W Queryset;
  get_source_queryset : ext W Queryset;
  (** [self.request.GET] *)
  GET : QueryDict;
  (** [queryset.order_by(field)] *)
  order_by : Queryset -> string -> Queryset;
  (** [self.paginate_by], the attribute the framework's own
      [get_paginate_by] returns *)
  paginate_by : option V
}.

(** The attributes of [self] the methods assign to. *)
Record attrs : Type := Attrs {
  queryset : option Queryset;
  field_name : option string
}.

Definition set_queryset (q : option Queryset) (a : attrs) : attrs :=
  {| queryset := q; field_name := field_name a |}.

Definition set_field_name (f : option string) (a : attrs) : attrs :=
  {| queryset := queryset a; field_name := f |}.

Definition M' := M W attrs.

(** [__init__] of the guarded class [g]. *)
Definition __init__ (g : guarded) (bases : list pyclass) (v : view)
    : M' unit :=
  result <- call "super().__init__" [] (super_init v) ;;
  match class_getattr (hd (cls v) (mro (cls v))) "get_queryset",
        class_getattr (guarded_class g bases) "get_queryset" with
  | Some f, Some f0 =>
      if negb (function_eqb f f0) then
        raise (ImproperlyConfigured
                 (cls_name (cls v) ++
                  " is overloading the get_queryset method. Subclasses " ++
                  "should implement the get_source_queryset method instead. "))
      else ret result
  | _, _ => raise (AttributeError "get_queryset")
  end.

Definition call_super_get_queryset (v : view) : M' Queryset :=
  a <- get_self ;;
  call "super().get_queryset" [] (super_get_queryset v (queryset a)).

(** The [try]/[except] of [get_queryset]; it is the whole method in
    six of the classes. *)
Definition restricted_queryset (v : view) : M' Queryset :=
  try_except
    (call_super_get_queryset v)
    is_ImproperlyConfigured
    (fun _ =>
       source <- call "get_source_queryset" [] (get_source_queryset v) ;;
       set_self (set_queryset (Some source)) ;;
       call_super_get_queryset v).

(** [SingleObjectListView.get_sort_field], [get_sort_order] *)
Definition get_sort_field (i : imports) (v : view) : option string :=
  QueryDict_get (GET v) (TEXT_SORT_FIELD_PARAMETER i).

Definition get_sort_order (i : imports) (v : view) : option string :=
  QueryDict_get (GET v) (TEXT_SORT_ORDER_PARAMETER i).

(** [SingleObjectListView.get_paginate_by(self, queryset)] *)
Definition get_paginate_by (i : imports) (v : view) (a : attrs)
    (queryset : Queryset) : V :=
  setting_paginate_by_value i.

(** [SingleObjectListView.get_queryset], lines 682-700. *)
Definition list_get_queryset (i : imports) (v : view) : M' Queryset :=
  queryset <- restricted_queryset v ;;
  set_self (set_field_name (get_sort_field i v)) ;;
  let sort_order :=
    if str_eq (get_sort_order i v) (TEXT_SORT_ORDER_CHOICE_ASCENDING i)
    then "" else "-" in
  a <- get_self ;;
  match field_name a with
  | Some field =>
      if str_truthy (Some field) then
        ret (order_by v queryset (sort_order ++ field)%string)
      else ret queryset
  | None => ret queryset
  end.

(** [get_queryset] of the guarded class [g]. *)
Definition get_queryset (g : guarded) (i : imports) (v : view)
    : M' Queryset :=
  match g with
  | SingleObjectListView => list_get_queryset i v
  | _ => restricted_queryset v
  end.
End View.
Arguments imports : clear implicits.
Arguments view : clear implicits.
Arguments attrs : clear implicits.

End Guarded.

(** ** [MultiFormView] *)

Module MultiFormView.

Section View.
Context {W Form Klass Initial Data Ctx R : Type}.

(** The keyword arguments a form is built with. *)
Record form_kwargs : Type := FormKwargs {
  kw_initial : Initial;
  kw_prefix : option string;
  (** [data] and [files], given on [POST] and [PUT] only *)
  kw_data : option Data
}.

(** [self].  A method looked up with [hasattr] under a computed name is
    an item of the dict of the methods of that kind the subclass
    defines, under its full name. *)
Record view : Type := View {
  form_classes : dict Klass;
  (** [self.initial.copy()] *)
  initial : Initial;
  prefix : option string;
  prefixes : dict string;
  (** [self.request.method] *)
  request_method : string;
  (** [self.request.POST] and [self.request.FILES] *)
  request_data : Data;
  (** [create_<name>_form] *)
  create_form_methods : dict (form_kwargs -> ext W Form);
  (** [<name>_form_valid] *)
  form_valid_methods : dict (Form -> ext W (response R));
  (** [get_<name>_initial] *)
  initial_methods : dict (ext W Initial);
  (** [all_forms_valid], which [MultiFormView] does not define *)
  all_forms_valid : option (dict Form -> ext W unit);
  (** [klass] called with the keyword arguments *)
  instantiate : Klass -> form_kwargs -> ext W Form;
  (** [form.is_valid()] *)
  is_valid : Form -> ext W bool;
  get_success_url : ext W string;
  (** [super(FormMixin, self).get_context_data(forms=...)] *)
  super_get_context_data : dict Form -> ext W Ctx;
  render_to_response : Ctx -> ext W R
}.

Definition M' := M W unit.

Definition get_form_classes (v : view) : dict Klass := form_classes v.

(** [get_initial(self, form_name)] *)
Definition get_initial (v : view) (form_name : string) : M' Initial :=
  let initial_method := ("get_" ++ form_name ++ "_initial")%string in
  match dict_get (initial_methods v) initial_method with
  | Some method => call initial_method [] method
  | None => ret (initial v)
  end.

(** [get_prefix(self, form_name)] *)
Definition get_prefix (v : view) (form_name : string) : option string :=
  match dict_get (prefixes v) form_name with
  | Some p => Some p
  | None => prefix v
  end.

(** [get_form_kwargs(self, form_name)] *)
Definition get_form_kwargs (v : view) (form_name : string)
    : M' form_kwargs :=
  initial <- get_initial v form_name ;;
  let prefix := get_prefix v form_name in
  if (String.eqb (request_method v) "POST"
      || String.eqb (request_method v) "PUT")%bool then
    ret {| kw_initial := initial; kw_prefix := prefix;
           kw_data := Some (request_data v) |}
  else
    ret {| kw_initial := initial; kw_prefix := prefix; kw_data := None |}.

(** [_create_form(self, form_name, klass)] *)
Definition _create_form (v : view) (form_name : string) (klass : Klass)
    : M' Form :=
  form_kwargs <- get_form_kwargs v form_name ;;
  let form_create_method := ("create_" ++ form_name ++ "_form")%string in
  match dict_get (create_form_methods v) form_create_method with
  | Some method => call form_create_method [form_name] (method form_kwargs)
  | None => call "klass" [form_name] (instantiate v klass form_kwargs)
  end.

(** [get_forms(self, form_classes)] *)
Definition get_forms (v : view) (form_classes : dict Klass)
    : M' (dict Form) :=
  pairs <- comprehension form_classes
             (fun item =>
                form <- _create_form v (fst item) (snd item) ;;
                ret (fst item, form)) ;;
  ret (dict_of_pairs pairs).

(** [get_context_data(self, **kwargs)], with the [forms] keyword when it
    is given. *)
Definition get_context_data (v : view) (forms : option (dict Form))
    : M' Ctx :=
  forms <- match forms with
           | Some forms => ret forms
           | None => get_forms v (get_form_classes v)
           end ;;
  call "super().get_context_data" (keys forms)
       (super_get_context_data v forms).

(** The loop of [forms_valid] from the items still to visit, and what
    follows the loop. *)
Fixpoint forms_valid_from (v : view) (items : list (string * Form))
    (forms : dict Form) : M' (response R) :=
  match items with
  | (form_name, form) :: rest =>
      let form_valid_method := (form_name ++ "_form_valid")%string in
      match dict_get (form_valid_methods v) form_valid_method with
      | Some method => call form_valid_method [form_name] (method form)
      | None => forms_valid_from v rest forms
      end
  | [] =>
      match all_forms_valid v with
      | Some method => call "all_forms_valid" (keys forms) (method forms)
      | None => raise (AttributeError "all_forms_valid")
      end ;;
      url <- call "get_success_url" [] (get_success_url v) ;;
      ret (HttpResponseRedirect url)
  end.

(** [forms_valid(self, forms)] *)
Definition forms_valid (v : view) (forms : dict Form) : M' (response R) :=
  forms_valid_from v forms forms.

(** [forms_invalid(self, forms)] *)
Definition forms_invalid (v : view) (forms : dict Form) : M' (response R) :=
  context <- get_context_data v (Some forms) ;;
  r <- call "render_to_response" [] (render_to_response v context) ;;
  ret (Response r).

(** [get(self, request)] *)
Definition get (v : view) : M' (response R) :=
  let form_classes := get_form_classes v in
  forms <- get_forms v form_classes ;;
  context <- get_context_data v (Some forms) ;;
  r <- call "render_to_response" [] (render_to_response v context) ;;
  ret (Response r).

(** [[form.is_valid() for form in forms.values()]] *)
Definition validate_all (v : view) (forms : dict Form) : M' (list bool) :=
  comprehension (values forms)
    (fun form => call "is_valid" [] (is_valid v form)).

(** [post(self, request)] *)
Definition post (v : view) : M' (response R) :=
  let form_classes := get_form_classes v in
  forms <- get_forms v form_classes ;;
  valid <- validate_all v forms ;;
  if forallb (fun b => b) valid then forms_valid v forms
  else forms_invalid v forms.
End View.
Arguments view : clear implicits.
Arguments form_kwargs : clear implicits.

End MultiFormView.

(** ** [SingleObjectCreateView] and [SingleObjectEditView] *)

Module ModelForm.

Section View.
Context {W Form Obj Value Ctx R : Type}.

(** [self], for the two views that save the object of a model form. *)
Record view : Type := View {
  (** [form.save(commit=False)] *)
  form_save : Form -> ext W Obj;
  (** [get_instance_extra_data] and [get_save_extra_data], looked up
      with [hasattr] *)
  get_instance_extra_data : option (ext W (dict Value));
  get_save_extra_data : option (ext W (dict Value));
  (** [setattr(obj, key, value)] *)
  setattr : Obj -> string -> Value -> Obj;
  (** [self.object.validate_unique()] *)
  validate_unique : Obj -> ext W unit;
  (** [self.object.save] with the keyword arguments [save_extra_data] *)
  save : Obj -> dict Value -> ext W unit;
  get_context_data : ext W Ctx;
  get_object_name : Ctx -> ext W string;
  error_message_duplicate : option text;
  (** [super(<class>, self).form_invalid(form=form)] *)
  super_form_invalid : Form -> ext W R;
  get_success_url : ext W string
}.

(** The attribute the methods assign to is [self.object]. *)
Definition M' := M W (option Obj).

(** The object the form makes, with the extra data of the view, and the
    keyword arguments to save it with: lines 433-442 of the create view
    and 587-596 of the edit view. *)
Definition unsaved_object (v : view) (form : Form)
    : M' (Obj * dict Value) :=
  obj <- call "form.save" ["commit=False"] (form_save v form) ;;
  set_self (fun _ => Some obj) ;;
  obj <- match get_instance_extra_data v with
         | Some method =>
             data <- call "get_instance_extra_data" [] method ;;
             let obj' :=
               fold_left (fun o item => setattr v o (fst item) (snd item))
                         data obj in
             set_self (fun _ => Some obj') ;;
             ret obj'
         | None => ret obj
         end ;;
  save_extra_data <- match get_save_extra_data v with
                     | Some method => call "get_save_extra_data" [] method
                     | None => ret []
                     end ;;
  ret (obj, save_extra_data).

(** [return super(<class>, self).form_invalid(form=form)] *)
Definition form_invalid (v : view) (form : Form) : M' (response R) :=
  r <- call "super().form_invalid" [] (super_form_invalid v form) ;;
  ret (Response r).

(** [return HttpResponseRedirect(redirect_to=self.get_success_url())] *)
Definition redirect (v : view) : M' (response R) :=
  url <- call "get_success_url" [] (get_success_url v) ;;
  ret (HttpResponseRedirect url).
End View.
Arguments view : clear implicits.

End ModelForm.

Module SingleObjectCreateView.
Import ModelForm.

Section View.
Context {W Form Obj Value Ctx R : Type}.
#[local] Abbreviation view := (ModelForm.view W Form Obj Value Ctx R).

(** [get_error_message_duplicate(self)] *)
Definition get_error_message_duplicate (v : view) : option text :=
  error_message_duplicate v.

(** What the messages of the view say. *)
Definition duplicate_message (v : view) (messages : list string) : text :=
  match get_error_message_duplicate v with
  | Some message =>
      if text_truthy (Some message) then message
      else Format "Duplicate data error: %(error)s"
                  [Named "error" (Str (join (String "010" "") messages))]
  | None =>
      Format "Duplicate data error: %(error)s"
             [Named "error" (Str (join (String "010" "") messages))]
  end.

Definition not_created (object_name : string) (e : exn) : text :=
  Format "%(object)s not created, error: %(error)s"
         [Named "object" (Str object_name); Named "error" (Exn e)].

Definition created (object_name : string) : text :=
  Format "%(object)s created successfully."
         [Named "object" (Str object_name)].

(** [exception.messages] of the exception an [except ValidationError]
    caught *)
Definition exn_messages (e : exn) : list string :=
  match e with
  | ValidationError messages => messages
  | _ => []
  end.

(** [form_valid(self, form)], lines 430-487. *)
Definition form_valid (v : view) (form : Form)
    : M W (option Obj) (response R) :=
  prepared <- unsaved_object v form ;;
  let obj := fst prepared in
  let save_extra_data := snd prepared in
  try_except_else
    (call "validate_unique" [] (validate_unique v obj))
    is_ValidationError
    (fun exception =>
       context <- call "get_context_data" [] (get_context_data v) ;;
       let error_message := duplicate_message v (exn_messages exception) in
       flash ERROR error_message ;;
       form_invalid v form)
    (fun _ =>
       try_except_else
         (call "save" [] (save v obj save_extra_data))
         is_Exception
         (fun exception =>
            context <- call "get_context_data" [] (get_context_data v) ;;
            object_name <- call "get_object_name" []
                             (get_object_name v context) ;;
            flash ERROR (not_created object_name exception) ;;
            form_invalid v form)
         (fun _ =>
            context <- call "get_context_data" [] (get_context_data v) ;;
            object_name <- call "get_object_name" []
                             (get_object_name v context) ;;
            flash SUCCESS (created object_name) ;;
            redirect v)).
End View.

End SingleObjectCreateView.

Module SingleObjectEditView.
Import ModelForm.

Section View.
Context {W Form Obj Value Ctx R : Type}.
#[local] Abbreviation view := (ModelForm.view W Form Obj Value Ctx R).

Definition not_updated (object_name : string) (e : exn) : text :=
  Format "%(object)s not updated, error: %(error)s."
         [Named "object" (Str object_name); Named "error" (Exn e)].

Definition updated (object_name : string) : text :=
  Format "%(object)s updated successfully."
         [Named "object" (Str object_name)].

(** [form_valid(self, form)], lines 584-620. *)
Definition form_valid (v : view) (form : Form)
    : M W (option Obj) (response R) :=
  prepared <- unsaved_object v form ;;
  let obj := fst prepared in
  let save_extra_data := snd prepared in
  context <- call "get_context_data" [] (get_context_data v) ;;
  object_name <- call "get_object_name" [] (get_object_name v context) ;;
  try_except_else
    (call "save" [] (save v obj save_extra_data))
    is_Exception
    (fun exception =>
       flash ERROR (not_updated object_name exception) ;;
       form_invalid v form)
    (fun _ =>
       flash SUCCESS (updated object_name) ;;
       redirect v).
End View.

End SingleObjectEditView.

(** ** [SingleObjectDeleteView] *)

Module SingleObjectDeleteView.

Section View.
Context {W Request Obj O R : Type}.

Record view : Type := View {
  get_object : ext W Obj;
  (** [super(SingleObjectDeleteView, self).get_context_data()] *)
  super_get_context_data : ext W (dict (value O));
  get_object_name : dict (value O) -> ext W string;
  (** [super(SingleObjectDeleteView, self).delete(request)] *)
  super_delete : Request -> ext W (response R)
}.

(** The attribute the methods assign to is [self.object]. *)
Definition M' := M W (option Obj).

Definition not_deleted (object_name : string) (e : exn) : text :=
  Format "%(object)s not deleted, error: %(error)s."
         [Named "object" (Str object_name); Named "error" (Exn e)].

Definition deleted (object_name : string) : text :=
  Format "%(object)s deleted successfully."
         [Named "object" (Str object_name)].

(** [get_context_data(self)] *)
Definition get_context_data (v : view) : M' (dict (value O)) :=
  context <- call "super().get_context_data" [] (super_get_context_data v) ;;
  ret (dict_set context "delete_view" (VBool true)).

(** [delete(self, request)], lines 513-537. *)
Definition delete (v : view) (request : Request) : M' (response R) :=
  obj <- call "get_object" [] (get_object v) ;;
  set_self (fun _ => Some obj) ;;
  context <- get_context_data v ;;
  object_name <- call "get_object_name" [] (get_object_name v context) ;;
  try_except_else
    (call "super().delete" [] (super_delete v request))
    is_Exception
    (fun exception =>
       flash ERROR (not_deleted object_name exception) ;;
       raise exception)
    (fun result =>
       flash SUCCESS (deleted object_name) ;;
       ret result).
End View.
Arguments view : clear implicits.

End SingleObjectDeleteView.

(** ** The page of [AssignRemoveView] *)

Module AssignRemovePage.
Import AssignRemoveView.

(** One entry of ['subtemplates_list'], the dict under ['context']
    written out beside the name and the column class. *)
Record subtemplate (Form Icon : Type) : Type := Subtemplate {
  name : string;
  column_class : string;
  form : Form;
  form_css_classes : string;
  title : string;
  submit_label : text;
  submit_icon_class : Icon;
  hide_labels : bool
}.

(** A value of the context of the page. *)
Inductive page_value (Form Icon O : Type) : Type :=
| Subtemplates (l : list (subtemplate Form Icon))
| Other (o : O).
Arguments Subtemplates {Form Icon O} l.
Arguments Other {Form Icon O} o.

Definition LEFT_LIST_NAME : string := "left_list".
Definition RIGHT_LIST_NAME : string := "right_list".

Section View.
Context {W Obj Form Icon O R : Type}.

(** [self]: what [process_form] uses, the methods a subclass defines
    ([None] where it does not), the attributes of the class, and the
    methods of the framework. *)
Record page : Type := Page {
  base : AssignRemoveView.view W Obj Form;
  left_list_method : option (ext W (items (grouped base)));
  right_list_method : option (ext W (items (grouped base)));
  add_method : option (selection_obj Obj -> ext W unit);
  remove_method : option (selection_obj Obj -> ext W unit);
  get_disabled_choices_method : option (ext W (list string));
  left_list_help_text : text;
  right_list_help_text : text;
  left_list_title : option string;
  right_list_title : option string;
  (** [ChoiceForm(choices=..., disabled_choices=..., help_text=...,
      prefix=...)], [disabled_choices] being [None] when it is not
      given *)
  ChoiceForm_unbound :
    items (grouped base) -> option (list string) -> text -> string ->
    ext W Form;
  (** [super(AssignRemoveView, self).get_context_data()] *)
  super_get_context_data : ext W (dict (page_value Form Icon O));
  render_to_response : dict (page_value Form Icon O) -> ext W R;
  (** from [.icons] *)
  icon_assign_remove_add : Icon;
  icon_assign_remove_remove : Icon
}.

(** The attributes [get] assigns to. *)
Record attrs : Type := Attrs {
  unselected_list : option Form;
  selected_list : option Form
}.

Definition M' := M W attrs.

(** A method whose body is [raise NotImplementedError]. *)
Definition not_implemented {A : Type} : ext W A :=
  fun w => (Raise NotImplementedError, w).

(** [left_list], [right_list], [add], [remove]: the method of the
    subclass, or the one of lines 84-98. *)
Definition left_list (p : page) : ext W (items (grouped (base p))) :=
  match left_list_method p with
  | Some method => method
  | None => not_implemented
  end.

Definition right_list (p : page) : ext W (items (grouped (base p))) :=
  match right_list_method p with
  | Some method => method
  | None => not_implemented
  end.

Definition add (p : page) (item : selection_obj Obj) : ext W unit :=
  match add_method p with
  | Some method => method item
  | None => not_implemented
  end.

Definition remove (p : page) (item : selection_obj Obj) : ext W unit :=
  match remove_method p with
  | Some method => method item
  | None => not_implemented
  end.

(** [get_disabled_choices(self)] *)
Definition get_disabled_choices (p : page) : ext W (list string) :=
  match get_disabled_choices_method p with
  | Some method => method
  | None => fun w => (Ret [], w)
  end.

Definition get_left_list_help_text (p : page) : text :=
  left_list_help_text p.

Definition get_right_list_help_text (p : page) : text :=
  right_list_help_text p.

(** [x or ' '] *)
Definition or_space (x : option string) : string :=
  match x with
  | Some title => if str_truthy (Some title) then title else " "
  | None => " "
  end.

(** [get_context_data(self)], lines 168-200. *)
Definition get_context_data (p : page) : M' (dict (page_value Form Icon O)) :=
  data <- call "super().get_context_data" [] (super_get_context_data p) ;;
  a <- get_self ;;
  match unselected_list a, selected_list a with
  | Some unselected, Some selected =>
      ret (dict_set data "subtemplates_list"
             (Subtemplates
                [{| name := "appearance/generic_form_subtemplate.html";
                    column_class := "col-xs-12 col-sm-6 col-md-6 col-lg-6";
                    form := unselected;
                    form_css_classes := "form-hotkey-double-click";
                    title := or_space (left_list_title p);
                    submit_label := Format "Add" [];
                    submit_icon_class := icon_assign_remove_add p;
                    hide_labels := true |};
                 {| name := "appearance/generic_form_subtemplate.html";
                    column_class := "col-xs-12 col-sm-6 col-md-6 col-lg-6";
                    form := selected;
                    form_css_classes := "form-hotkey-double-click";
                    title := or_space (right_list_title p);
                    submit_label := Format "Remove" [];
                    submit_icon_class := icon_assign_remove_remove p;
                    hide_labels := true |}]))
  | None, _ => raise (AttributeError "unselected_list")
  | _, None => raise (AttributeError "selected_list")
  end.

(** [get(self, request)], lines 109-120. *)
Definition get (p : page) : M' (response R) :=
  choices <- call "left_list" [] (left_list p) ;;
  unselected <- call "ChoiceForm" [LEFT_LIST_NAME]
                  (ChoiceForm_unbound p choices None
                     (get_left_list_help_text p) LEFT_LIST_NAME) ;;
  set_self (fun a => {| unselected_list := Some unselected;
                        selected_list := selected_list a |}) ;;
  choices <- call "right_list" [] (right_list p) ;;
  disabled <- call "get_disabled_choices" [] (get_disabled_choices p) ;;
  selected <- call "ChoiceForm" [RIGHT_LIST_NAME]
                (ChoiceForm_unbound p choices (Some disabled)
                   (get_right_list_help_text p) RIGHT_LIST_NAME) ;;
  set_self (fun a => {| unselected_list := unselected_list a;
                        selected_list := Some selected |}) ;;
  context <- get_context_data p ;;
  r <- call "render_to_response" [] (render_to_response p context) ;;
  ret (Response r).

(** A method that assigns to no attribute of [self], run in a view that
    has some. *)
Definition without_attrs {A : Type} (m : M W unit A) : M' A :=
  fun s =>
    let (r, s') := m {| world := world s; self := tt; trace := trace s |} in
    (r, {| world := world s'; self := self s; trace := trace s' |}).

(** [post(self, request)], lines 157-166. *)
Definition post (p : page) : M' (response R) :=
  without_attrs
    (process_form (base p) LEFT_LIST_NAME (left_list p) (add p)) ;;
  without_attrs
    (process_form (base p) RIGHT_LIST_NAME (right_list p) (remove p)) ;;
  get p.
End View.
Arguments page : clear implicits.
Arguments attrs : clear implicits.

End AssignRemovePage.

(** ** [SingleObjectListView.get_sort_icon] *)

Module SingleObjectListView.

Section View.
Context {W Queryset V Icon : Type}.

(** [get_sort_icon(self)], lines 667-674; the two icons come from
    [.icons]. *)
Definition get_sort_icon (i : Guarded.imports V)
    (icon_sort_down icon_sort_up : Icon)
    (v : Guarded.view W Queryset V) : option Icon :=
  let sort_order := Guarded.get_sort_order i v in
  if negb (str_truthy sort_order) then None
  else if str_eq sort_order (Guarded.TEXT_SORT_ORDER_CHOICE_ASCENDING i)
       then Some icon_sort_down
       else Some icon_sort_up.
End View.

End SingleObjectListView.

(** ** [SingleObjectEditView.get_object] *)

Module EditObject.
Import ModelForm.

Section View.
Context {W Form Obj Value Ctx R Queryset : Type}.

(** [get_object(self, queryset=None)], lines 622-629;
    [super_get_object] is the method of the parent class. *)
Definition get_object (v : view W Form Obj Value Ctx R)
    (super_get_object : option Queryset -> ext W Obj)
    (queryset : option Queryset) : M W (option Obj) Obj :=
  obj <- call "super().get_object" [] (super_get_object queryset) ;;
  match get_instance_extra_data v with
  | Some method =>
      data <- call "get_instance_extra_data" [] method ;;
      ret (fold_left (fun o item => setattr v o (fst item) (snd item))
                     data obj)
  | None => ret obj
  end.
End View.

End EditObject.

(** ** Notions the properties are stated with *)

(** A method that leaves the calls of [method] in the trace as they
    are, whatever happens. *)
Definition never_calls {W S A : Type} (method : string) (m : M W S A)
    : Prop :=
  forall s, calls_of method (trace (snd (m s))) = calls_of method (trace s).

(** The number of times a character occurs in a string. *)
Fixpoint count_char (c : ascii) (s : string) : nat :=
  match s with
  | EmptyString => 0
  | String c' rest =>
      (if Ascii.eqb c' c then 1 else 0) + count_char c rest
  end.

(** ** Views to run the methods on *)

Module Examples.

(** A queryset, as far as the examples go: the model it reads and the
    ordering asked of it. *)
Record queryset : Type := Queryset { model : string; ordering : list string }.

Definition order_by (q : queryset) (field : string) : queryset :=
  {| model := model q; ordering := [field] |}.

Definition documents : queryset := {| model := "Document"; ordering := [] |}.

(** The lookup of the framework's list and detail mixins in a view that
    names no model: the [queryset] attribute when it is set,
    [ImproperlyConfigured] when it is not. *)
Definition framework_get_queryset (qs : option queryset)
    : ext unit queryset :=
  fun w =>
    match qs with
    | Some q => (Ret q, w)
    | None => (Raise (ImproperlyConfigured "missing a QuerySet"), w)
    end.

Definition imports : Guarded.imports Z :=
  {| Guarded.TEXT_SORT_FIELD_PARAMETER := "_sort_field";
     Guarded.TEXT_SORT_ORDER_PARAMETER := "_sort_order";
     Guarded.TEXT_SORT_ORDER_CHOICE_ASCENDING := "asc";
     Guarded.setting_paginate_by_value := 40%Z |}.

(** A subclass of the guarded class [g] that defines
    [get_source_queryset], and one that defines [get_queryset]. *)
Definition document_view_class (g : Guarded.guarded) : pyclass :=
  Class "DocumentView"
        [("get_source_queryset",
          Function "DocumentView.get_source_queryset")]
        (mro (Guarded.guarded_class g [])).

Definition overloading_class (g : Guarded.guarded) : pyclass :=
  Class "OverloadingView"
        [("get_queryset", Function "OverloadingView.get_queryset")]
        (mro (Guarded.guarded_class g [])).

Definition guarded_view (c : pyclass) (GET : QueryDict)
    : Guarded.view unit queryset Z :=
  {| Guarded.cls := c;
     Guarded.super_init := fun w => (Ret tt, w);
     Guarded.super_get_queryset := framework_get_queryset;
     Guarded.get_source_queryset := fun w => (Ret documents, w);
     Guarded.GET := GET;
     Guarded.order_by := order_by;
     Guarded.paginate_by := Some 10%Z |}.

Definition document_list (GET : QueryDict) : Guarded.view unit queryset Z :=
  guarded_view (document_view_class Guarded.SingleObjectListView) GET.

(** A view that has just been made: no [queryset], nothing done yet. *)
Definition fresh : state unit (Guarded.attrs queryset) :=
  {| world := tt;
     self := {| Guarded.queryset := None; Guarded.field_name := None |};
     trace := [] |}.

(** A form of the examples knows whether it was given data and whether
    its data validate; its class decides the latter. *)
Record form : Type := Form { bound : bool; validates : bool }.

Definition instantiate (klass : bool)
    (kwargs : MultiFormView.form_kwargs unit unit) : ext unit form :=
  fun w =>
    (Ret {| bound := match MultiFormView.kw_data kwargs with
                     | Some _ => true
                     | None => false
                     end;
            validates := klass |}, w).

(** A view over the classes [form_classes]; the handlers, when given,
    answer with the form they were called on. *)
Definition multi_form_view (form_classes : dict bool)
    (handlers : list string)
    : MultiFormView.view unit form bool unit unit (dict form) (dict form) :=
  {| MultiFormView.form_classes := form_classes;
     MultiFormView.initial := tt;
     MultiFormView.prefix := None;
     MultiFormView.prefixes := [];
     MultiFormView.request_method := "POST";
     MultiFormView.request_data := tt;
     MultiFormView.create_form_methods := [];
     MultiFormView.form_valid_methods :=
       map (fun name =>
              (name, fun (f : form) (w : unit) =>
                       (Ret (Response [(name, f)]), w)))
           handlers;
     MultiFormView.initial_methods := [];
     MultiFormView.all_forms_valid := Some (fun _ w => (Ret tt, w));
     MultiFormView.instantiate := instantiate;
     MultiFormView.is_valid :=
       fun f w => (Ret (bound f && validates f)%bool, w);
     MultiFormView.get_success_url := fun w => (Ret "/done/", w);
     MultiFormView.super_get_context_data := fun forms w => (Ret forms, w);
     MultiFormView.render_to_response := fun context w => (Ret context, w) |}.

(** A request that has just come in. *)
Definition request : state unit unit :=
  {| world := tt; self := tt; trace := [] |}.

(** A table of the examples holds the names saved in it, and refuses a
    name it has already. *)
Definition save_row (row : string) (save_extra_data : dict string)
    : ext (list string) unit :=
  fun rows =>
    if existsb (String.eqb row) rows then
      (Raise (Exception_ "IntegrityError" "duplicate key"), rows)
    else (Ret tt, row :: rows).

(** A view that creates or edits the row its form names. *)
Definition row_form_view
    : ModelForm.view (list string) string string string unit string :=
  {| ModelForm.form_save := fun form rows => (Ret form, rows);
     ModelForm.get_instance_extra_data := None;
     ModelForm.get_save_extra_data := None;
     ModelForm.setattr := fun obj _ _ => obj;
     ModelForm.validate_unique := fun _ rows => (Ret tt, rows);
     ModelForm.save := save_row;
     ModelForm.get_context_data := fun rows => (Ret tt, rows);
     ModelForm.get_object_name := fun _ rows => (Ret "tag", rows);
     ModelForm.error_message_duplicate := None;
     ModelForm.super_form_invalid := fun form rows => (Ret form, rows);
     ModelForm.get_success_url := fun rows => (Ret "/tags/", rows) |}.

(** A view that deletes the row [row]; a row that is not there cannot be
    deleted. *)
Definition row_delete_view (row : string)
    : SingleObjectDeleteView.view (list string) unit string unit unit :=
  {| SingleObjectDeleteView.get_object := fun rows => (Ret row, rows);
     SingleObjectDeleteView.super_get_context_data :=
       fun rows => (Ret [], rows);
     SingleObjectDeleteView.get_object_name := fun _ rows => (Ret row, rows);
     SingleObjectDeleteView.super_delete :=
       fun _ rows =>
         if existsb (String.eqb row) rows then
           (Ret (HttpResponseRedirect "/tags/"),
            filter (fun r => negb (String.eqb row r)) rows)
         else (Raise (Exception_ "DoesNotExist" "no such row"), rows) |}.

(** A table with the rows [rows], before the view has done anything. *)
Definition table {S : Type} (rows : list string) (attributes : S)
    : state (list string) S :=
  {| world := rows; self := attributes; trace := [] |}.

(** A view that moves the keys selected in the left list to the world,
    the list of the keys moved so far; [b] cannot be moved. *)
Definition transfer_view (debug : bool)
    : AssignRemoveView.view (list string) string (list string) :=
  {| AssignRemoveView.decode_content_type := false;
     AssignRemoveView.grouped := false;
     AssignRemoveView.DEBUG := debug;
     AssignRemoveView.POST_keys := ["left_list-submit"; "left_list-selection"];
     AssignRemoveView.ChoiceForm :=
       fun _ _ moved => (Ret ["a"; "b"; "c"], moved);
     AssignRemoveView.is_valid := fun _ moved => (Ret true, moved);
     AssignRemoveView.cleaned_data_selection := fun form => form;
     AssignRemoveView.get_object_for_this_type :=
       fun _ pk moved => (Ret pk, moved) |}.

Definition left_list : ext (list string) (list (string * string)) :=
  fun moved => (Ret [("a", "Alpha"); ("b", "Beta"); ("c", "Gamma")], moved).

Definition add (item : AssignRemoveView.selection_obj string)
    : ext (list string) unit :=
  fun moved =>
    let key := match item with
               | AssignRemoveView.Key key => key
               | AssignRemoveView.Object obj => obj
               end in
    if String.eqb key "b" then
      (Raise (Exception_ "PermissionDenied" "b is protected"), moved)
    else (Ret tt, moved ++ [key]).

(** A view like [transfer_view] that decodes its selections; the object
    of a content type and a primary key is the two joined by a colon. *)
Definition decoding_view
    : AssignRemoveView.view (list string) string (list string) :=
  {| AssignRemoveView.decode_content_type := true;
     AssignRemoveView.grouped := false;
     AssignRemoveView.DEBUG := false;
     AssignRemoveView.POST_keys := ["left_list-submit"];
     AssignRemoveView.ChoiceForm := fun _ _ moved => (Ret ["a"], moved);
     AssignRemoveView.is_valid := fun _ moved => (Ret true, moved);
     AssignRemoveView.cleaned_data_selection := fun form => form;
     AssignRemoveView.get_object_for_this_type :=
       fun model pk moved => (Ret (model ++ ":" ++ pk)%string, moved) |}.

(** A view over [form_classes] whose class defines nothing beyond
    [MultiFormView], asked with the method [method]. *)
Definition plain_multi_form_view (form_classes : dict bool)
    (method : string)
    : MultiFormView.view unit form bool unit unit (dict form) (dict form) :=
  {| MultiFormView.form_classes := form_classes;
     MultiFormView.initial := tt;
     MultiFormView.prefix := Some "form";
     MultiFormView.prefixes := [("avatar", "picture")];
     MultiFormView.request_method := method;
     MultiFormView.request_data := tt;
     MultiFormView.create_form_methods := [];
     MultiFormView.form_valid_methods := [];
     MultiFormView.initial_methods := [];
     MultiFormView.all_forms_valid := None;
     MultiFormView.instantiate := instantiate;
     MultiFormView.is_valid :=
       fun f w => (Ret (bound f && validates f)%bool, w);
     MultiFormView.get_success_url := fun w => (Ret "/done/", w);
     MultiFormView.super_get_context_data := fun forms w => (Ret forms, w);
     MultiFormView.render_to_response := fun context w => (Ret context, w) |}.

(** A view like [row_form_view] that checks the name against the table
    before it saves, with the message [message] for duplicates; the save
    is interrupted from the keyboard when [interrupted] is set. *)
Definition checked_form_view (message : option text) (interrupted : bool)
    : ModelForm.view (list string) string string string unit string :=
  {| ModelForm.form_save := fun form rows => (Ret form, rows);
     ModelForm.get_instance_extra_data := None;
     ModelForm.get_save_extra_data := None;
     ModelForm.setattr := fun obj _ _ => obj;
     ModelForm.validate_unique :=
       fun obj rows =>
         if existsb (String.eqb obj) rows then
           (Raise (ValidationError ["Tag with this Label already exists."]),
            rows)
         else (Ret tt, rows);
     ModelForm.save :=
       fun obj save_extra_data rows =>
         if interrupted then
           (Raise (BaseException_ "KeyboardInterrupt" ""), rows)
         else save_row obj save_extra_data rows;
     ModelForm.get_context_data := fun rows => (Ret tt, rows);
     ModelForm.get_object_name := fun _ rows => (Ret "tag", rows);
     ModelForm.error_message_duplicate := message;
     ModelForm.super_form_invalid := fun form rows => (Ret form, rows);
     ModelForm.get_success_url := fun rows => (Ret "/tags/", rows) |}.

(** A view whose deletion is interrupted from the keyboard, and whose
    parent class already says something of [delete_view]. *)
Definition interrupted_delete_view
    : SingleObjectDeleteView.view (list string) unit string unit unit :=
  {| SingleObjectDeleteView.get_object := fun rows => (Ret "invoices", rows);
     SingleObjectDeleteView.super_get_context_data :=
       fun rows => (Ret [("delete_view", VBool false);
                         ("title", VOther tt)], rows);
     SingleObjectDeleteView.get_object_name :=
       fun _ rows => (Ret "invoices", rows);
     SingleObjectDeleteView.super_delete :=
       fun _ rows => (Raise (BaseException_ "KeyboardInterrupt" ""), rows) |}.

(** The page over [transfer_view], with the lists [lists] when the
    subclass defines them, and the keys [keys] in the [POST]. *)
Definition page_view (keys : list string) (defined : bool)
    : AssignRemovePage.page (list string) string (list string) string unit
        (dict (AssignRemovePage.page_value (list string) string unit)) :=
  {| AssignRemovePage.base :=
       {| AssignRemoveView.decode_content_type := false;
          AssignRemoveView.grouped := false;
          AssignRemoveView.DEBUG := false;
          AssignRemoveView.POST_keys := keys;
          AssignRemoveView.ChoiceForm :=
            fun _ _ moved => (Ret ["a"; "b"; "c"], moved);
          AssignRemoveView.is_valid := fun _ moved => (Ret true, moved);
          AssignRemoveView.cleaned_data_selection := fun form => form;
          AssignRemoveView.get_object_for_this_type :=
            fun _ pk moved => (Ret pk, moved) |};
     AssignRemovePage.left_list_method :=
       if defined then Some left_list else None;
     AssignRemovePage.right_list_method :=
       if defined
       then Some (fun moved => (Ret (map (fun k => (k, k)) moved), moved))
       else None;
     AssignRemovePage.add_method := if defined then Some add else None;
     AssignRemovePage.remove_method := None;
     AssignRemovePage.get_disabled_choices_method := None;
     AssignRemovePage.left_list_help_text := Format "Select to add." [];
     AssignRemovePage.right_list_help_text := Format "Select to remove." [];
     AssignRemovePage.left_list_title := Some "Available";
     AssignRemovePage.right_list_title := None;
     AssignRemovePage.ChoiceForm_unbound :=
       fun choices _ _ _ moved => (Ret (map fst choices), moved);
     AssignRemovePage.super_get_context_data := fun moved => (Ret [], moved);
     AssignRemovePage.render_to_response :=
       fun context moved => (Ret context, moved);
     AssignRemovePage.icon_assign_remove_add := "plus";
     AssignRemovePage.icon_assign_remove_remove := "minus" |}.

(** A page that has not been shown yet. *)
Definition unshown (moved : list string)
    : state (list string) (AssignRemovePage.attrs (list string)) :=
  {| world := moved;
     self := {| AssignRemovePage.unselected_list := None;
                AssignRemovePage.selected_list := None |};
     trace := [] |}.

(** A view whose objects are the dicts of their attributes; the form
    gives the object the fields it holds, and the view makes the
    administrator the owner of every object. *)
Definition owned_form_view
    : ModelForm.view unit (dict string) (dict string) string unit unit :=
  {| ModelForm.form_save := fun form w => (Ret form, w);
     ModelForm.get_instance_extra_data :=
       Some (fun w => (Ret [("owner", "admin")], w));
     ModelForm.get_save_extra_data := None;
     ModelForm.setattr := fun obj key value => dict_set obj key value;
     ModelForm.validate_unique := fun _ w => (Ret tt, w);
     ModelForm.save := fun _ _ w => (Ret tt, w);
     ModelForm.get_context_data := fun w => (Ret tt, w);
     ModelForm.get_object_name := fun _ w => (Ret "tag", w);
     ModelForm.error_message_duplicate := None;
     ModelForm.super_form_invalid := fun _ w => (Ret tt, w);
     ModelForm.get_success_url := fun w => (Ret "/tags/", w) |}.

(** A left list that holds only the keys that have not been moved
    yet. *)
Definition remaining_list : ext (list string) (list (string * string)) :=
  fun moved =>
    (Ret (filter (fun item => negb (existsb (String.eqb (fst item)) moved))
            [("a", "Alpha"); ("b", "Beta"); ("c", "Gamma")]),
     moved).

(** A view like [transfer_view] whose form holds the selection
    [selection]. *)
Definition selecting_view (selection : list string)
    : AssignRemoveView.view (list string) string (list string) :=
  {| AssignRemoveView.decode_content_type := false;
     AssignRemoveView.grouped := false;
     AssignRemoveView.DEBUG := false;
     AssignRemoveView.POST_keys := ["left_list-submit"; "left_list-selection"];
     AssignRemoveView.ChoiceForm :=
       fun _ _ moved => (Ret selection, moved);
     AssignRemoveView.is_valid := fun _ moved => (Ret true, moved);
     AssignRemoveView.cleaned_data_selection := fun form => form;
     AssignRemoveView.get_object_for_this_type :=
       fun _ pk moved => (Ret pk, moved) |}.

End Examples.

(** * Properties *)

(** ** Strings order totally *)

Lemma ascii_compare_refl (c : ascii) : Ascii.compare c c = Eq.
Proof. unfold Ascii.compare. apply N.compare_refl. Qed.

Lemma ascii_compare_trans (a b c : ascii) (o : comparison) :
  Ascii.compare a b = o -> Ascii.compare b c = o -> Ascii.compare a c = o.
Proof.
  unfold Ascii.compare. destruct o; intros H1 H2.
  - apply N.compare_eq_iff in H1, H2. apply N.compare_eq_iff. congruence.
  - rewrite N.compare_lt_iff in *. lia.
  - rewrite N.compare_gt_iff in *. lia.
Qed.

Lemma ascii_compare_eq (a b : ascii) : Ascii.compare a b = Eq -> a = b.
Proof.
  unfold Ascii.compare. intros H. apply N.compare_eq_iff in H.
  rewrite <- (ascii_N_embedding a), <- (ascii_N_embedding b). now f_equal.
Qed.

Lemma string_compare_lt_trans (s1 : string) :
  forall s2 s3, String.compare s1 s2 = Lt -> String.compare s2 s3 = Lt ->
                String.compare s1 s3 = Lt.
Proof.
  induction s1 as [|a s1 IH]; intros [|b s2] [|c s3]; simpl;
    try discriminate; auto.
  destruct (Ascii.compare a b) eqn:Eab; try discriminate;
    destruct (Ascii.compare b c) eqn:Ebc; try discriminate; intros H1 H2.
  - apply ascii_compare_eq in Eab, Ebc. subst.
    rewrite ascii_compare_refl. eauto.
  - apply ascii_compare_eq in Eab. subst. now rewrite Ebc.
  - apply ascii_compare_eq in Ebc. subst. now rewrite Eab.
  - now rewrite (ascii_compare_trans _ _ _ Eab Ebc).
Qed.

Lemma string_leb_trans (s1 s2 s3 : string) :
  String.leb s1 s2 = true -> String.leb s2 s3 = true ->
  String.leb s1 s3 = true.
Proof.
  unfold String.leb.
  destruct (String.compare s1 s2) eqn:E12; try discriminate;
    destruct (String.compare s2 s3) eqn:E23; try discriminate; intros _ _.
  - apply String.compare_eq_iff in E12. rewrite E12. now rewrite E23.
  - apply String.compare_eq_iff in E12. rewrite E12. now rewrite E23.
  - apply String.compare_eq_iff in E23. rewrite <- E23. now rewrite E12.
  - now rewrite (string_compare_lt_trans _ _ _ E12 E23).
Qed.

Lemma string_length_append (s1 s2 : string) :
  String.length (s1 ++ s2) = String.length s1 + String.length s2.
Proof. induction s1 as [|c s1 IH]; simpl; [reflexivity | now rewrite IH]. Qed.

(** ** [sorted] sorts, and keeps every element *)

Section Sorted.
Context {A : Type} (key : A -> string).

Lemma insert_sorted_perm (x : A) (l : list A) :
  Permutation (insert_sorted key x l) (x :: l).
Proof.
  induction l as [|y l IH]; simpl; auto.
  destruct (String.leb (key x) (key y)); auto.
  rewrite IH. apply perm_swap.
Qed.

Lemma sorted_perm (l : list A) : Permutation (sorted key l) l.
Proof.
  induction l as [|x l IH]; simpl; auto.
  unfold sorted in *. simpl. rewrite insert_sorted_perm. auto.
Qed.

Lemma insert_sorted_strongly (x : A) (l : list A) :
  StronglySorted (key_le key) l ->
  StronglySorted (key_le key) (insert_sorted key x l).
Proof.
  induction 1 as [|y l Hs IH Hall]; simpl.
  - repeat constructor.
  - destruct (String.leb (key x) (key y)) eqn:E.
    + constructor; [constructor; assumption|].
      constructor; [exact E|].
      eapply Forall_impl; [|exact Hall].
      intros z Hz. unfold key_le in *. eapply string_leb_trans; eauto.
    + constructor; [assumption|].
      apply (Permutation_Forall (Permutation_sym (insert_sorted_perm x l))).
      constructor; [|assumption].
      unfold key_le. destruct (String.leb_total (key x) (key y)); congruence.
Qed.

Lemma sorted_strongly (l : list A) : StronglySorted (key_le key) (sorted key l).
Proof.
  induction l as [|x l IH]; [constructor|].
  unfold sorted in *. simpl. now apply insert_sorted_strongly.
Qed.
End Sorted.

(** ** [AssignRemoveView.generate_choices] *)

Lemma fold_left_append {A B : Type} (f : A -> B) (l : list A) :
  forall acc, fold_left (fun r x => r ++ [f x]) l acc = acc ++ map f l.
Proof.
  induction l as [|x l IH]; intros acc; simpl.
  - now rewrite app_nil_r.
  - rewrite IH, <- app_assoc. reflexivity.
Qed.

(** C6: the choices are one pair per instance, the key
    ['<content type model>,<pk>'] with the text of the instance as label,
    and they come in the order of the labels; the order of the keys is
    not what sorts them. *)
Theorem generate_choices_sorted_by_label
    (choices : list AssignRemoveView.model_instance) :
  let pair_of choice :=
    ((AssignRemoveView.ct_model choice ++ "," ++
      AssignRemoveView.str_pk (AssignRemoveView.pk choice))%string,
     AssignRemoveView.force_text choice) in
  Permutation (AssignRemoveView.generate_choices choices)
              (map pair_of choices)
  /\ length (AssignRemoveView.generate_choices choices) = length choices
  /\ StronglySorted (key_le snd) (AssignRemoveView.generate_choices choices)
  /\ exists others,
       ~ StronglySorted (key_le fst)
           (AssignRemoveView.generate_choices others).
Proof.
  intros pair_of.
  assert (P : Permutation (AssignRemoveView.generate_choices choices)
                          (map pair_of choices)).
  { unfold AssignRemoveView.generate_choices.
    rewrite (fold_left_append pair_of). simpl. apply sorted_perm. }
  split; [exact P|]. split.
  - rewrite (Permutation_length P). apply length_map.
  - split; [apply sorted_strongly|].
    exists [AssignRemoveView.Instance "tag" (AssignRemoveView.PkInt 2) "alpha";
            AssignRemoveView.Instance "tag" (AssignRemoveView.PkInt 1) "beta"].
    intros H. inversion H as [|? ? _ Hall]; subst.
    inversion Hall as [|? ? Hle _]; subst.
    vm_compute in Hle. discriminate.
Qed.

(** ** The guarded views *)

Section GuardedFacts.
Import Guarded.
Context {W Queryset V : Type}.
Implicit Types (i : imports V) (v : view W Queryset V)
               (s : state W (attrs Queryset)) (g : guarded).

Lemma guarded_class_get_queryset g (bases : list pyclass) :
  class_getattr (guarded_class g bases) "get_queryset"
  = Some (method g "get_queryset").
Proof. destruct g; reflexivity. Qed.

Lemma dict_get_guarded_class g (bases : list pyclass) :
  dict_get (cls_namespace (guarded_class g bases)) "get_queryset"
  = Some (method g "get_queryset").
Proof. destruct g; reflexivity. Qed.

Lemma lookup_mro_defined (classes : list pyclass) (c : pyclass)
    (attr : string) (f : function) :
  In c classes -> dict_get (cls_namespace c) attr = Some f ->
  exists f', lookup_mro classes attr = Some f'.
Proof.
  induction classes as [|c0 classes IH]; simpl; [tauto|].
  intros [->|Hin] Hc.
  - rewrite Hc. eauto.
  - destruct (dict_get (cls_namespace c0) attr); eauto.
Qed.

Lemma hd_mro (c : pyclass) : hd c (mro c) = c.
Proof. destruct c; reflexivity. Qed.

Lemma function_eqb_eq (f f' : function) :
  function_eqb f f' = true <-> f = f'.
Proof.
  destruct f as [a], f' as [b]. simpl. rewrite String.eqb_eq.
  split; congruence.
Qed.

(** C7: the page size is the value of the global setting, whatever the
    view, its attributes and the queryset. *)
Theorem get_paginate_by_is_the_global_setting i v
    (a : attrs Queryset) (queryset : Queryset) :
  get_paginate_by i v a queryset = setting_paginate_by_value i
  /\ forall v' (a' : attrs Queryset) (queryset' : Queryset),
       get_paginate_by i v' a' queryset' = get_paginate_by i v a queryset.
Proof. split; reflexivity. Qed.

(** C8: making an instance of a class that has the guarded class [g] in
    its linearisation raises [ImproperlyConfigured] exactly when
    [get_queryset] looked up on the class is not the function [g]
    defines; otherwise [__init__] returns. *)
Theorem init_refuses_overloaded_get_queryset g (bases : list pyclass) v s
    (w : W) :
  In (guarded_class g bases) (mro (cls v)) ->
  super_init v (world s) = (Ret tt, w) ->
  ((exists msg s',
      __init__ g bases v s = (Raise (ImproperlyConfigured msg), s'))
   <-> class_getattr (cls v) "get_queryset" <> Some (method g "get_queryset"))
  /\ (class_getattr (cls v) "get_queryset" = Some (method g "get_queryset")
      -> fst (__init__ g bases v s) = Ret tt).
Proof.
  intros Hsub Hinit.
  destruct (lookup_mro_defined _ _ "get_queryset" Hsub
              (dict_get_guarded_class g bases)) as [f Hf].
  unfold __init__, bind, call. rewrite Hinit, hd_mro.
  rewrite guarded_class_get_queryset. unfold class_getattr. rewrite Hf.
  destruct (function_eqb f (method g "get_queryset")) eqn:E; simpl.
  - apply function_eqb_eq in E. subst f. split; [|reflexivity].
    split; [intros (msg & s' & H); discriminate | congruence].
  - split.
    + split; [|intros _; unfold raise; eauto]. intros _ H. injection H as ->.
      rewrite (proj2 (function_eqb_eq _ _) eq_refl) in E. discriminate.
    + intros H. injection H as ->.
      rewrite (proj2 (function_eqb_eq _ _) eq_refl) in E. discriminate.
Qed.

Lemma str_eq_true (x : option string) (y : string) :
  str_eq x y = true <-> x = Some y.
Proof.
  destruct x as [x|]; simpl; [|split; discriminate].
  rewrite String.eqb_eq. split; congruence.
Qed.

(** C1: the list view orders the queryset by the sort field of the
    query string when it is not empty, ascending when the sort order of
    the query string is the ascending choice and descending in every
    other case, and leaves the queryset as it is without a sort field. *)
Theorem list_view_sorts_by_query_parameters i v s
    (q : Queryset) (s1 : state W (attrs Queryset)) :
  restricted_queryset v s = (Ret q, s1) ->
  let sort_field := QueryDict_get (GET v) (TEXT_SORT_FIELD_PARAMETER i) in
  let sort_order := QueryDict_get (GET v) (TEXT_SORT_ORDER_PARAMETER i) in
  let ascending := Some (TEXT_SORT_ORDER_CHOICE_ASCENDING i) in
  let returned := fst (get_queryset SingleObjectListView i v s) in
  (forall field, sort_field = Some field -> field <> "" ->
     (sort_order = ascending -> returned = Ret (order_by v q field))
     /\ (sort_order <> ascending ->
         returned = Ret (order_by v q ("-" ++ field)%string)))
  /\ (sort_field = None \/ sort_field = Some "" -> returned = Ret q).
Proof.
  intros Hq sort_field sort_order ascending returned.
  subst returned. unfold get_queryset, list_get_queryset, bind.
  rewrite Hq. simpl. unfold get_sort_field, get_sort_order.
  fold sort_field sort_order. split.
  - intros field Hf Hne. rewrite Hf.
    destruct field as [|c field]; [congruence|]. split; intros Ho.
    + rewrite (proj2 (str_eq_true _ _) Ho). reflexivity.
    + destruct (str_eq sort_order (TEXT_SORT_ORDER_CHOICE_ASCENDING i)) eqn:E;
        [apply str_eq_true in E; contradiction | reflexivity].
  - intros [Hf|Hf]; rewrite Hf; reflexivity.
Qed.
Lemma restricted_queryset_found v s (q : Queryset) (w1 : W) :
  super_get_queryset v (queryset (self s)) (world s) = (Ret q, w1) ->
  restricted_queryset v s
  = (Ret q, {| world := w1; self := self s;
               trace := trace s ++ [Called "super().get_queryset" []] |}).
Proof.
  intros H. unfold restricted_queryset, try_except, try_except_else,
    call_super_get_queryset, bind, get_self, call. simpl.
  rewrite H. reflexivity.
Qed.

Lemma restricted_queryset_other_error v s (e : exn) (w1 : W) :
  super_get_queryset v (queryset (self s)) (world s) = (Raise e, w1) ->
  is_ImproperlyConfigured e = false ->
  restricted_queryset v s
  = (Raise e, {| world := w1; self := self s;
                 trace := trace s ++ [Called "super().get_queryset" []] |}).
Proof.
  intros H He. unfold restricted_queryset, try_except, try_except_else,
    call_super_get_queryset, bind, get_self, call. simpl.
  rewrite H, He. reflexivity.
Qed.

Lemma restricted_queryset_fallback v s (e : exn) (w1 w2 w3 : W)
    (source : Queryset) (r : result Queryset) :
  super_get_queryset v (queryset (self s)) (world s) = (Raise e, w1) ->
  is_ImproperlyConfigured e = true ->
  get_source_queryset v w1 = (Ret source, w2) ->
  super_get_queryset v (Some source) w2 = (r, w3) ->
  restricted_queryset v s
  = (r, {| world := w3; self := set_queryset (Some source) (self s);
           trace := trace s ++ [Called "super().get_queryset" [];
                                Called "get_source_queryset" [];
                                Called "super().get_queryset" []] |}).
Proof.
  intros H He Hs H2. unfold restricted_queryset, try_except, try_except_else,
    call_super_get_queryset, bind, get_self, set_self, call. simpl.
  rewrite H, He. simpl. rewrite Hs. simpl. rewrite H2.
  repeat rewrite <- app_assoc. reflexivity.
Qed.

(** What the list view does after the lookup leaves [self.queryset],
    the world and the trace as they are. *)
Lemma get_queryset_after_lookup g i v s (r : result Queryset)
    (s1 : state W (attrs Queryset)) :
  restricted_queryset v s = (r, s1) ->
  let ordered q :=
    match g with
    | SingleObjectListView =>
        match QueryDict_get (GET v) (TEXT_SORT_FIELD_PARAMETER i) with
        | Some (String c field) =>
            order_by v q
              ((if str_eq (QueryDict_get (GET v) (TEXT_SORT_ORDER_PARAMETER i))
                          (TEXT_SORT_ORDER_CHOICE_ASCENDING i)
                then "" else "-") ++ String c field)%string
        | _ => q
        end
    | _ => q
    end in
  fst (get_queryset g i v s)
  = match r with Ret q => Ret (ordered q) | Raise e => Raise e end
  /\ queryset (self (snd (get_queryset g i v s))) = queryset (self s1)
  /\ world (snd (get_queryset g i v s)) = world s1
  /\ trace (snd (get_queryset g i v s)) = trace s1.
Proof.
  intros H ordered.
  destruct g; simpl; try (rewrite H; destruct r; simpl; tauto).
  unfold list_get_queryset, bind. rewrite H.
  destruct r as [q|e]; simpl; [|tauto].
  unfold get_sort_field, get_sort_order.
  destruct (QueryDict_get (GET v) (TEXT_SORT_FIELD_PARAMETER i))
    as [[|c field]|]; simpl; tauto.
Qed.

(** C2, as the code has it: [get_queryset] asks the framework lookup
    first; when the lookup answers, or raises anything but
    [ImproperlyConfigured], that is the outcome and [self.queryset] is
    not touched; when it raises [ImproperlyConfigured], [self.queryset]
    becomes the result of [get_source_queryset()] and the outcome is the
    one of the framework lookup run again.  Six of the views return the
    queryset the lookup gave; the list view returns it ordered by the
    sort field of the query string when there is one. *)
Theorem get_queryset_falls_back_to_source_queryset g i v s :
  let lookup := super_get_queryset v in
  let run := get_queryset g i v s in
  let ordered q :=
    match g with
    | SingleObjectListView =>
        match QueryDict_get (GET v) (TEXT_SORT_FIELD_PARAMETER i) with
        | Some (String c field) =>
            order_by v q
              ((if str_eq (QueryDict_get (GET v) (TEXT_SORT_ORDER_PARAMETER i))
                          (TEXT_SORT_ORDER_CHOICE_ASCENDING i)
                then "" else "-") ++ String c field)%string
        | _ => q
        end
    | _ => q
    end in
  (forall q w1,
     lookup (queryset (self s)) (world s) = (Ret q, w1) ->
     fst run = Ret (ordered q)
     /\ queryset (self (snd run)) = queryset (self s)
     /\ trace (snd run) = trace s ++ [Called "super().get_queryset" []])
  /\ (forall e w1,
        lookup (queryset (self s)) (world s) = (Raise e, w1) ->
        is_ImproperlyConfigured e = false ->
        fst run = Raise e
        /\ queryset (self (snd run)) = queryset (self s)
        /\ trace (snd run) = trace s ++ [Called "super().get_queryset" []])
  /\ (forall e w1 source w2 r w3,
        lookup (queryset (self s)) (world s) = (Raise e, w1) ->
        is_ImproperlyConfigured e = true ->
        get_source_queryset v w1 = (Ret source, w2) ->
        lookup (Some source) w2 = (r, w3) ->
        fst run = match r with
                  | Ret q => Ret (ordered q)
                  | Raise e' => Raise e'
                  end
        /\ queryset (self (snd run)) = Some source
        /\ trace (snd run)
           = trace s ++ [Called "super().get_queryset" [];
                         Called "get_source_queryset" [];
                         Called "super().get_queryset" []]).
Proof.
  intros lookup run ordered. subst lookup run. repeat split.
  1-3: destruct (get_queryset_after_lookup g i v s
                   (restricted_queryset_found v s H))
         as (Hr & Hq & _ & Ht); simpl in *; assumption.
  1-3: destruct (get_queryset_after_lookup g i v s
                   (restricted_queryset_other_error v s H H0))
         as (Hr & Hq & _ & Ht); simpl in *; assumption.
  1-3: destruct (get_queryset_after_lookup g i v s
                   (restricted_queryset_fallback v s H H0 H1 H2))
         as (Hr & Hq & _ & Ht); simpl in *; assumption.
Qed.
End GuardedFacts.

Lemma get_paginate_by_ignores_the_view_attribute :
  Guarded.paginate_by (Examples.document_list []) = Some 10%Z
  /\ Guarded.get_paginate_by Examples.imports (Examples.document_list [])
       (self Examples.fresh) Examples.documents = 40%Z.
Proof. split; reflexivity. Qed.

Lemma init_refuses_overloaded_get_queryset_witness :
  let g := Guarded.SingleObjectDeleteView in
  (exists msg s',
     Guarded.__init__ g []
       (Examples.guarded_view (Examples.overloading_class g) [])
       Examples.fresh
     = (Raise (ImproperlyConfigured msg), s'))
  /\ fst (Guarded.__init__ g []
            (Examples.guarded_view (Examples.document_view_class g) [])
            Examples.fresh) = Ret tt.
Proof.
  intros g. split.
  - apply (proj1 (init_refuses_overloaded_get_queryset g []
                    (Examples.guarded_view (Examples.overloading_class g) [])
                    Examples.fresh (w := tt)
                    (or_intror (or_introl eq_refl)) eq_refl)).
    vm_compute. discriminate.
  - apply (proj2 (init_refuses_overloaded_get_queryset g []
                    (Examples.guarded_view (Examples.document_view_class g) [])
                    Examples.fresh (w := tt)
                    (or_intror (or_introl eq_refl)) eq_refl)).
    reflexivity.
Defined.

Lemma list_view_sorts_by_query_parameters_witness :
  let ascending :=
    Examples.document_list [("_sort_field", "label"); ("_sort_order", "asc")] in
  let descending := Examples.document_list [("_sort_field", "label")] in
  let unsorted := Examples.document_list [("page", "2")] in
  let run v :=
    fst (Guarded.get_queryset Guarded.SingleObjectListView Examples.imports v
           Examples.fresh) in
  run ascending = Ret (Examples.order_by Examples.documents "label")
  /\ run descending = Ret (Examples.order_by Examples.documents "-label")
  /\ run unsorted = Ret Examples.documents.
Proof.
  intros ascending descending unsorted run. split; [|split].
  - apply (proj1 (list_view_sorts_by_query_parameters Examples.imports
                    ascending Examples.fresh eq_refl) "label");
      [reflexivity | discriminate | reflexivity].
  - apply (proj1 (list_view_sorts_by_query_parameters Examples.imports
                    descending Examples.fresh eq_refl) "label");
      [reflexivity | discriminate | discriminate].
  - apply (proj2 (list_view_sorts_by_query_parameters Examples.imports
                    unsorted Examples.fresh eq_refl)).
    left. reflexivity.
Defined.

Lemma get_queryset_falls_back_to_source_queryset_witness :
  let g := Guarded.SingleObjectDetailView in
  let v := Examples.guarded_view (Examples.document_view_class g) [] in
  let run := Guarded.get_queryset g Examples.imports v Examples.fresh in
  fst run = Ret Examples.documents
  /\ Guarded.queryset (self (snd run)) = Some Examples.documents
  /\ trace (snd run) = [Called "super().get_queryset" [];
                        Called "get_source_queryset" [];
                        Called "super().get_queryset" []].
Proof.
  intros g v run.
  apply (proj2 (proj2 (get_queryset_falls_back_to_source_queryset
                         g Examples.imports v Examples.fresh))
           (ImproperlyConfigured "missing a QuerySet") tt Examples.documents
           tt (Ret Examples.documents) tt);
    reflexivity.
Defined.

(** The list view does not return what the framework lookup gave when the
    query string names a sort field. *)
Lemma list_view_get_queryset_reorders_the_lookup :
  let v := Examples.document_list [("_sort_field", "label")] in
  let s := Examples.fresh in
  Guarded.super_get_queryset v (Guarded.queryset (self s)) (world s)
  = (Raise (ImproperlyConfigured "missing a QuerySet"), tt)
  /\ Guarded.get_source_queryset v tt = (Ret Examples.documents, tt)
  /\ Guarded.super_get_queryset v (Some Examples.documents) tt
     = (Ret Examples.documents, tt)
  /\ fst (Guarded.get_queryset Guarded.SingleObjectListView Examples.imports
            v s)
     = Ret (Examples.order_by Examples.documents "-label")
  /\ fst (Guarded.get_queryset Guarded.SingleObjectListView Examples.imports
            v s)
     <> Ret Examples.documents.
Proof.
  repeat split; try reflexivity. vm_compute. discriminate.
Qed.

(** ** Running a method *)

Section Runs.
Context {W S : Type}.
Implicit Types (s : state W S).

Lemma comprehension_calls {A B : Type} (method : string)
    (args : list string) (f : A -> ext W B) (xs : list A) :
  forall s ys s',
    comprehension xs (fun x => call method args (f x)) s = (Ret ys, s') ->
    length ys = length xs
    /\ self s' = self s
    /\ trace s' = trace s ++ repeat (Called method args) (length xs).
Proof.
  induction xs as [|x xs IH]; intros s ys s'; simpl.
  - unfold ret. intros H. injection H as <- <-.
    now rewrite app_nil_r.
  - unfold bind at 1. unfold call at 1.
    destruct (f x (world s)) as [[y|e] w]; [|discriminate].
    unfold bind at 1.
    destruct (comprehension xs _ _) as [[ys'|e] s''] eqn:E; [|discriminate].
    unfold ret. intros H. injection H as <- <-.
    destruct (IH _ _ _ E) as (Hl & Hs & Ht). simpl in *.
    rewrite Hl, Hs, Ht, <- app_assoc. auto.
Qed.

(** What a comprehension of calls answers: the calls are made in the
    order of the list, each in the world the one before left, and the
    result holds the answer of each at its place. *)
Lemma comprehension_answers {A B : Type} (method : string)
    (args : list string) (f : A -> ext W B) (xs : list A) :
  forall s ys s',
    comprehension xs (fun x => call method args (f x)) s = (Ret ys, s') ->
    exists ws : list W,
      length ws = Datatypes.S (length xs)
      /\ nth_error ws 0 = Some (world s)
      /\ nth_error ws (length xs) = Some (world s')
      /\ forall i x,
           nth_error xs i = Some x ->
           exists w y w',
             nth_error ws i = Some w
             /\ f x w = (Ret y, w')
             /\ nth_error ys i = Some y
             /\ nth_error ws (Datatypes.S i) = Some w'.
Proof.
  induction xs as [|x xs IH]; intros s ys s'; simpl.
  - unfold ret. intros H. injection H as <- <-.
    exists [world s]. repeat split.
    intros [|i] x H; discriminate H.
  - unfold bind at 1. unfold call at 1.
    destruct (f x (world s)) as [[y|e] w] eqn:Ef; [|discriminate].
    unfold bind at 1.
    destruct (comprehension xs _ _) as [[ys'|e] s''] eqn:E; [|discriminate].
    unfold ret. intros H. injection H as <- <-.
    destruct (IH _ _ _ E) as (ws & Hl & H0 & Hn & Hi). simpl in H0.
    exists (world s :: ws). simpl. repeat split.
    + now rewrite Hl.
    + exact Hn.
    + intros [|i] x' Hx; simpl in Hx.
      * injection Hx as <-. exists (world s), y, w. simpl. auto.
      * destruct (Hi i x' Hx) as (w0 & y0 & w0' & ? & ? & ? & ?).
        exists w0, y0, w0'. simpl. auto.
Qed.

Lemma comprehension_answers_of {A B : Type} (method : string)
    (args : list string) (f : A -> ext W B) (g : A -> B) (xs : list A) :
  (forall x w, In x xs -> fst (f x w) = Ret (g x)) ->
  forall s ys s',
    comprehension xs (fun x => call method args (f x)) s = (Ret ys, s') ->
    ys = map g xs.
Proof.
  induction xs as [|x xs IH]; intros Hg s ys s'; simpl.
  - unfold ret. intros H. now injection H as <- <-.
  - unfold bind at 1. unfold call at 1.
    pose proof (Hg x (world s) (or_introl eq_refl)) as Hx.
    destruct (f x (world s)) as [[y|e] w]; [|discriminate].
    simpl in Hx. injection Hx as ->.
    unfold bind at 1.
    destruct (comprehension xs _ _) as [[ys'|e] s''] eqn:E; [|discriminate].
    unfold ret. intros H. injection H as <- <-.
    f_equal. eapply IH; [|exact E].
    intros x' w' Hin. apply Hg. now right.
Qed.

Lemma forallb_id_true (bs : list bool) :
  forallb (fun b => b) bs = true <-> Forall (eq true) bs.
Proof.
  rewrite forallb_forall, Forall_forall. split; intros H b Hb.
  - symmetry. auto.
  - symmetry. auto.
Qed.

Lemma forallb_id_false (bs : list bool) :
  forallb (fun b => b) bs = false <-> Exists (eq false) bs.
Proof.
  induction bs as [|[|] bs IH]; simpl.
  - split; [discriminate | intros H; inversion H].
  - rewrite IH. split; [auto | intros H; inversion H; [discriminate|auto]].
  - split; auto.
Qed.
End Runs.

(** ** Dictionaries *)

Lemma dict_set_keys {V : Type} (d : dict V) (key : string) (v : V)
    (k : string) :
  In k (keys (dict_set d key v)) <-> k = key \/ In k (keys d).
Proof.
  induction d as [|[k0 v0] d IH]; simpl.
  - intuition.
  - destruct (String.eqb_spec k0 key) as [->|Hne]; simpl.
    + intuition.
    + rewrite IH. intuition.
Qed.

Lemma dict_of_pairs_keys {V : Type} (pairs : list (string * V)) (k : string) :
  In k (keys (dict_of_pairs pairs)) <-> In k (map fst pairs).
Proof.
  unfold dict_of_pairs.
  assert (G : forall d,
             In k (keys (fold_left (fun d kv => dict_set d (fst kv) (snd kv))
                                   pairs d))
             <-> In k (keys d) \/ In k (map fst pairs)).
  { induction pairs as [|[k0 v0] pairs IH]; intros d; simpl.
    - intuition.
    - rewrite IH, dict_set_keys. intuition. }
  rewrite G. simpl. intuition.
Qed.

Lemma comprehension_tagged {W S A B K : Type} (g : A -> M W S B)
    (h : A -> K) (xs : list A) :
  forall s ys s',
    comprehension xs (fun x => y <- g x ;; ret (h x, y)) s = (Ret ys, s') ->
    map fst ys = map h xs.
Proof.
  induction xs as [|x xs IH]; intros s ys s'; simpl.
  - unfold ret. intros H. now injection H as <- <-.
  - unfold bind at 1. unfold bind at 1.
    destruct (g x s) as [[y|e] s1]; [|discriminate].
    unfold ret at 1. unfold bind at 1.
    destruct (comprehension xs _ s1) as [[ys'|e] s2] eqn:E; [|discriminate].
    unfold ret. intros H. injection H as <- <-. simpl.
    f_equal. eauto.
Qed.

(** ** [MultiFormView] *)

Section MultiFormFacts.
Import MultiFormView.
Context {W Form Klass Initial Data Ctx R : Type}.
Implicit Types (v : view W Form Klass Initial Data Ctx R)
               (s : state W unit) (forms : dict Form).

Lemma form_valid_method_name (form_name : string) :
  (form_name ++ "_form_valid")%string <> "all_forms_valid".
Proof.
  intros H.
  assert (L : String.length form_name = 4).
  { apply (f_equal String.length) in H.
    rewrite string_length_append in H. simpl in H. lia. }
  destruct form_name as [|a [|b [|c [|d [|e rest]]]]]; try discriminate.
Qed.

Lemma forms_valid_from_handler v (pre post : list (string * Form))
    (name : string) (form : Form) forms
    (method : Form -> ext W (response R)) s :
  (forall n f, In (n, f) pre ->
     dict_get (form_valid_methods v) (n ++ "_form_valid") = None) ->
  dict_get (form_valid_methods v) (name ++ "_form_valid") = Some method ->
  forms_valid_from v (pre ++ (name, form) :: post) forms s
  = call (name ++ "_form_valid") [name] (method form) s.
Proof.
  intros Hpre Hm. induction pre as [|[n f] pre IH]; simpl.
  - now rewrite Hm.
  - rewrite (Hpre n f (or_introl eq_refl)). apply IH.
    intros n' f' Hin. apply (Hpre n' f'). now right.
Qed.

Lemma first_handler v (items : list (string * Form)) :
  (exists name form,
     In (name, form) items
     /\ dict_get (form_valid_methods v) (name ++ "_form_valid") <> None) ->
  exists pre name form post method,
    items = pre ++ (name, form) :: post
    /\ (forall n f, In (n, f) pre ->
          dict_get (form_valid_methods v) (n ++ "_form_valid") = None)
    /\ dict_get (form_valid_methods v) (name ++ "_form_valid") = Some method.
Proof.
  induction items as [|[n f] items IH]; intros (name & form & Hin & Hh).
  - destruct Hin.
  - destruct (dict_get (form_valid_methods v) (n ++ "_form_valid"))
      as [method|] eqn:E.
    + exists [], n, f, items, method. simpl. intuition.
    + destruct IH as (pre & name' & form' & post & method & -> & Hpre & Hm).
      { exists name, form. split; [|assumption].
        destruct Hin as [Heq|Hin]; [|assumption].
        injection Heq as -> ->. congruence. }
      exists ((n, f) :: pre), name', form', post, method.
      split; [reflexivity|]. split; [|assumption].
      intros n0 f0 [Heq|Hin0]; [injection Heq as <- <-; assumption|eauto].
Qed.

Lemma forms_valid_from_no_handler v (items : list (string * Form)) forms s :
  (forall n f, In (n, f) items ->
     dict_get (form_valid_methods v) (n ++ "_form_valid") = None) ->
  forms_valid_from v items forms s = forms_valid_from v [] forms s.
Proof.
  induction items as [|[n f] items IH]; intros H; [reflexivity|].
  simpl. rewrite (H n f (or_introl eq_refl)). apply IH.
  intros n' f' Hin. apply (H n' f'). now right.
Qed.

(** C9: when a form has a method [<name>_form_valid], [forms_valid]
    returns what the method of the first such form returns and calls
    nothing else, neither [all_forms_valid] nor the method of another
    form; without such a method it calls [all_forms_valid] and redirects
    to the success URL. *)
Theorem forms_valid_short_circuits v forms s :
  let handler name :=
    dict_get (form_valid_methods v) (name ++ "_form_valid") in
  (forall pre name form post method,
     forms = pre ++ (name, form) :: post ->
     (forall n f, In (n, f) pre -> handler n = None) ->
     handler name = Some method ->
     forms_valid v forms s
     = (fst (method form (world s)),
        {| world := snd (method form (world s)); self := self s;
           trace := trace s ++ [Called (name ++ "_form_valid") [name]] |})
     /\ (name ++ "_form_valid")%string <> "all_forms_valid"
     /\ (name ++ "_form_valid")%string <> "get_success_url")
  /\ ((exists name form, In (name, form) forms /\ handler name <> None) ->
      exists pre name form post method,
        forms = pre ++ (name, form) :: post
        /\ (forall n f, In (n, f) pre -> handler n = None)
        /\ handler name = Some method)
  /\ ((forall name form, In (name, form) forms -> handler name = None) ->
      forall method w1 url w2,
        all_forms_valid v = Some method ->
        method forms (world s) = (Ret tt, w1) ->
        get_success_url v w1 = (Ret url, w2) ->
        forms_valid v forms s
        = (Ret (HttpResponseRedirect url),
           {| world := w2; self := self s;
              trace := trace s ++ [Called "all_forms_valid" (keys forms);
                                   Called "get_success_url" []] |})).
Proof.
  intros handler. split; [|split].
  - intros pre name form post method Hforms Hpre Hm. split; [|split].
    + unfold forms_valid. rewrite Hforms at 1.
      rewrite (forms_valid_from_handler v pre post name form forms s Hpre Hm).
      unfold call. destruct (method form (world s)). reflexivity.
    + apply form_valid_method_name.
    + intros H.
      assert (L : String.length name = 4).
      { apply (f_equal String.length) in H.
        rewrite string_length_append in H. simpl in H. lia. }
      destruct name as [|a [|b [|c [|d [|e rest]]]]]; discriminate.
  - apply first_handler.
  - intros Hnone method w1 url w2 Hall Hcall Hurl.
    unfold forms_valid. rewrite forms_valid_from_no_handler by assumption.
    simpl. rewrite Hall. unfold bind, call, ret. rewrite Hcall. simpl.
    rewrite Hurl. rewrite <- app_assoc. reflexivity.
Qed.

Lemma get_forms_keys v (classes : dict Klass) s forms s' :
  get_forms v classes s = (Ret forms, s') ->
  forall name, In name (keys forms) <-> In name (keys classes).
Proof.
  unfold get_forms. unfold bind at 1.
  destruct (comprehension classes _ s) as [[pairs|e] s1] eqn:E; [|discriminate].
  unfold ret. intros H name. injection H as <- <-.
  rewrite dict_of_pairs_keys.
  now rewrite (comprehension_tagged _ _ _ _ E).
Qed.

Lemma get_form_kwargs_bound v (form_name : string) s
    (kwargs : form_kwargs Initial Data) s' :
  request_method v = "POST" ->
  get_form_kwargs v form_name s = (Ret kwargs, s') ->
  kw_data kwargs = Some (request_data v).
Proof.
  intros Hm. unfold get_form_kwargs, bind. rewrite Hm. simpl.
  destruct (get_initial v form_name s) as [[initial|e] s1]; [|discriminate].
  unfold ret. intros H. now injection H as <- <-.
Qed.

(** C5: [post] makes a form of every configured class and asks each of
    them whether it is valid, in the order of the forms and each in the
    world the one before left: the list [valid] holds, at the place of
    every form, what [is_valid] answered for that form.  [post] returns
    what [forms_valid] returns when all of them are valid, and what
    [forms_invalid] returns when one is not, which is the response
    rendered from a context built with the forms.  When the answer of
    [is_valid] depends on the form only, [post] is [forms_valid] if
    every form validates and [forms_invalid] otherwise. *)
Theorem post_dispatches_on_validity v s forms
    (s1 : state W unit) (valid : list bool) (s2 : state W unit) :
  get_forms v (get_form_classes v) s = (Ret forms, s1) ->
  validate_all v forms s1 = (Ret valid, s2) ->
  (forall name, In name (keys forms) <-> In name (keys (form_classes v)))
  /\ (request_method v = "POST" ->
      forall name s0 kwargs s0',
        get_form_kwargs v name s0 = (Ret kwargs, s0') ->
        kw_data kwargs = Some (request_data v))
  /\ length valid = length forms
  /\ trace s2 = trace s1 ++ repeat (Called "is_valid" []) (length forms)
  /\ (Forall (eq true) valid -> post v s = forms_valid v forms s2)
  /\ (Exists (eq false) valid -> post v s = forms_invalid v forms s2)
  /\ (forall context w r w',
        super_get_context_data v forms (world s2) = (Ret context, w) ->
        render_to_response v context w = (Ret r, w') ->
        forms_invalid v forms s2
        = (Ret (Response r),
           {| world := w'; self := self s2;
              trace := trace s2 ++ [Called "super().get_context_data"
                                           (keys forms);
                                    Called "render_to_response" []] |}))
  /\ (exists ws : list W,
        length ws = S (length forms)
        /\ nth_error ws 0 = Some (world s1)
        /\ nth_error ws (length forms) = Some (world s2)
        /\ forall i form,
             nth_error (values forms) i = Some form ->
             exists w b w',
               nth_error ws i = Some w
               /\ is_valid v form w = (Ret b, w')
               /\ nth_error valid i = Some b
               /\ nth_error ws (S i) = Some w')
  /\ (forall ok : Form -> bool,
        (forall form w,
           In form (values forms) -> fst (is_valid v form w) = Ret (ok form)) ->
        valid = map ok (values forms)
        /\ post v s = if forallb ok (values forms)
                      then forms_valid v forms s2
                      else forms_invalid v forms s2).
Proof.
  intros Hforms Hvalid.
  destruct (comprehension_calls _ _ _ _ _ Hvalid) as (Hlen & _ & Htrace).
  unfold values in Hlen, Htrace. rewrite length_map in Hlen, Htrace.
  split; [exact (get_forms_keys v _ s Hforms)|].
  split; [intros Hm name s0 kwargs s0'; now apply get_form_kwargs_bound|].
  split; [exact Hlen|]. split; [exact Htrace|].
  split; [|split; [|split; [|split]]].
  - intros Hall. apply forallb_id_true in Hall.
    unfold post, bind. rewrite Hforms, Hvalid, Hall. reflexivity.
  - intros Hone. apply forallb_id_false in Hone.
    unfold post, bind. rewrite Hforms, Hvalid, Hone. reflexivity.
  - intros context w r w' Hctx Hrender.
    unfold forms_invalid, get_context_data, bind, ret, call. simpl.
    rewrite Hctx. simpl. rewrite Hrender. rewrite <- app_assoc. reflexivity.
  - destruct (comprehension_answers _ _ _ _ _ Hvalid)
      as (ws & Hl & H0 & Hn & Hi).
    unfold values in Hl, Hn. rewrite length_map in Hl, Hn.
    exists ws. auto.
  - intros ok Hok.
    pose proof (comprehension_answers_of _ _ _ ok _ Hok _ Hvalid) as ->.
    split; [reflexivity|].
    unfold post, bind. rewrite Hforms, Hvalid.
    replace (forallb (fun b => b) (map ok (values forms)))
      with (forallb ok (values forms));
      [now destruct (forallb ok (values forms))|].
    clear Hlen Hvalid.
    induction (values forms) as [|form rest IH]; simpl; [reflexivity|].
    f_equal. apply IH. intros form' w Hin. apply Hok. now right.
Qed.
End MultiFormFacts.

Lemma post_dispatches_on_validity_witness :
  let valid_view :=
    Examples.multi_form_view [("profile", true); ("avatar", true)] [] in
  let invalid_view :=
    Examples.multi_form_view [("profile", true); ("avatar", false)] [] in
  let profile := {| Examples.bound := true; Examples.validates := true |} in
  let avatar := {| Examples.bound := true; Examples.validates := false |} in
  fst (MultiFormView.post valid_view Examples.request)
  = Ret (HttpResponseRedirect "/done/")
  /\ fst (MultiFormView.post invalid_view Examples.request)
     = Ret (Response [("profile", profile); ("avatar", avatar)]).
Proof.
  intros valid_view invalid_view profile avatar.
  pose (ok := fun f : Examples.form =>
                (Examples.bound f && Examples.validates f)%bool).
  split.
  - rewrite (proj2 (proj2 (proj2 (proj2 (proj2 (proj2 (proj2 (proj2 (proj2
               (post_dispatches_on_validity valid_view Examples.request
                  (valid := [true; true]) eq_refl eq_refl))))))))
               ok (fun _ _ _ => eq_refl))).
    reflexivity.
  - rewrite (proj2 (proj2 (proj2 (proj2 (proj2 (proj2 (proj2 (proj2 (proj2
               (post_dispatches_on_validity invalid_view Examples.request
                  (valid := [true; false]) eq_refl eq_refl))))))))
               ok (fun _ _ _ => eq_refl))).
    reflexivity.
Defined.

Lemma forms_valid_short_circuits_witness :
  let v :=
    Examples.multi_form_view [("profile", true); ("avatar", true)]
      ["avatar_form_valid"] in
  let profile := {| Examples.bound := true; Examples.validates := true |} in
  let avatar := {| Examples.bound := true; Examples.validates := true |} in
  let forms := [("profile", profile); ("avatar", avatar)] in
  MultiFormView.forms_valid v forms Examples.request
  = (Ret (Response [("avatar_form_valid", avatar)]),
     {| world := tt; self := tt;
        trace := [Called "avatar_form_valid" ["avatar"]] |})
  /\ MultiFormView.forms_valid
       (Examples.multi_form_view [("profile", true); ("avatar", true)] [])
       forms Examples.request
     = (Ret (HttpResponseRedirect "/done/"),
        {| world := tt; self := tt;
           trace := [Called "all_forms_valid" ["profile"; "avatar"];
                     Called "get_success_url" []] |}).
Proof.
  intros v profile avatar forms. split.
  - apply (proj1 (forms_valid_short_circuits v forms Examples.request)
             [("profile", profile)] "avatar" avatar []
             (fun f w => (Ret (Response [("avatar_form_valid", f)]), w))
             eq_refl).
    + intros n f [H|[]]. injection H as <- <-. reflexivity.
    + reflexivity.
  - apply (proj2 (proj2 (forms_valid_short_circuits
                    (Examples.multi_form_view
                       [("profile", true); ("avatar", true)] [])
                    forms Examples.request))
             (fun _ _ _ => eq_refl) (fun _ w => (Ret tt, w)) tt "/done/" tt
             eq_refl eq_refl eq_refl).
Defined.

(** ** [SingleObjectCreateView], [SingleObjectEditView] *)

Ltac run :=
  unfold bind, call, ret, raise, flash, log, set_self, get_self,
    try_except, try_except_else; simpl.

Ltac done := simpl; repeat rewrite <- app_assoc; simpl; reflexivity.

Section ModelFormFacts.
Import ModelForm.
Context {W Form Obj Value Ctx R : Type}.
Variable v : view W Form Obj Value Ctx R.
Variable form : Form.
Variables (s s1 : state W (option Obj)) (obj : Obj)
          (save_extra_data : dict Value).
Hypothesis prepared :
  unsaved_object v form s = (Ret (obj, save_extra_data), s1).

(** C3: in both views, when saving the object raises an exception, an
    error message is flashed and the answer is the one of [form_invalid],
    without a look at the success URL; when the object is saved, a
    success message is flashed and the answer is a redirect to the
    success URL. *)
Theorem form_valid_flashes_and_answers :
  (forall (e : exn) (w2 w3 w4 w5 w6 : W) (context : Ctx)
          (object_name : string) (r : R),
     validate_unique v obj (world s1) = (Ret tt, w2) ->
     save v obj save_extra_data w2 = (Raise e, w3) ->
     is_Exception e = true ->
     get_context_data v w3 = (Ret context, w4) ->
     get_object_name v context w4 = (Ret object_name, w5) ->
     super_form_invalid v form w5 = (Ret r, w6) ->
     SingleObjectCreateView.form_valid v form s
     = (Ret (Response r),
        {| world := w6; self := self s1;
           trace := trace s1 ++
             [Called "validate_unique" []; Called "save" [];
              Called "get_context_data" []; Called "get_object_name" [];
              Flashed ERROR (SingleObjectCreateView.not_created object_name e);
              Called "super().form_invalid" []] |}))
  /\ (forall (w2 w3 w4 w5 w6 : W) (context : Ctx)
          (object_name url : string),
     validate_unique v obj (world s1) = (Ret tt, w2) ->
     save v obj save_extra_data w2 = (Ret tt, w3) ->
     get_context_data v w3 = (Ret context, w4) ->
     get_object_name v context w4 = (Ret object_name, w5) ->
     get_success_url v w5 = (Ret url, w6) ->
     SingleObjectCreateView.form_valid v form s
     = (Ret (HttpResponseRedirect url),
        {| world := w6; self := self s1;
           trace := trace s1 ++
             [Called "validate_unique" []; Called "save" [];
              Called "get_context_data" []; Called "get_object_name" [];
              Flashed SUCCESS (SingleObjectCreateView.created object_name);
              Called "get_success_url" []] |}))
  /\ (forall (e : exn) (w2 w3 w4 w5 : W) (context : Ctx)
          (object_name : string) (r : R),
     get_context_data v (world s1) = (Ret context, w2) ->
     get_object_name v context w2 = (Ret object_name, w3) ->
     save v obj save_extra_data w3 = (Raise e, w4) ->
     is_Exception e = true ->
     super_form_invalid v form w4 = (Ret r, w5) ->
     SingleObjectEditView.form_valid v form s
     = (Ret (Response r),
        {| world := w5; self := self s1;
           trace := trace s1 ++
             [Called "get_context_data" []; Called "get_object_name" [];
              Called "save" [];
              Flashed ERROR (SingleObjectEditView.not_updated object_name e);
              Called "super().form_invalid" []] |}))
  /\ (forall (w2 w3 w4 w5 : W) (context : Ctx) (object_name url : string),
     get_context_data v (world s1) = (Ret context, w2) ->
     get_object_name v context w2 = (Ret object_name, w3) ->
     save v obj save_extra_data w3 = (Ret tt, w4) ->
     get_success_url v w4 = (Ret url, w5) ->
     SingleObjectEditView.form_valid v form s
     = (Ret (HttpResponseRedirect url),
        {| world := w5; self := self s1;
           trace := trace s1 ++
             [Called "get_context_data" []; Called "get_object_name" [];
              Called "save" [];
              Flashed SUCCESS (SingleObjectEditView.updated object_name);
              Called "get_success_url" []] |})).
Proof.
  split; [|split; [|split]].
  - intros * Hu Hs He Hc Hn Hi.
    unfold SingleObjectCreateView.form_valid. unfold bind at 1.
    rewrite prepared. unfold form_invalid. run.
    rewrite Hu. simpl. rewrite Hs, He. simpl. rewrite Hc. simpl.
    rewrite Hn. simpl. rewrite Hi. done.
  - intros * Hu Hs Hc Hn Hr.
    unfold SingleObjectCreateView.form_valid. unfold bind at 1.
    rewrite prepared. unfold redirect. run.
    rewrite Hu. simpl. rewrite Hs. simpl. rewrite Hc. simpl.
    rewrite Hn. simpl. rewrite Hr. done.
  - intros * Hc Hn Hs He Hi.
    unfold SingleObjectEditView.form_valid. unfold bind at 1.
    rewrite prepared. unfold form_invalid. run.
    rewrite Hc. simpl. rewrite Hn. simpl. rewrite Hs, He. simpl.
    rewrite Hi. done.
  - intros * Hc Hn Hs Hr.
    unfold SingleObjectEditView.form_valid. unfold bind at 1.
    rewrite prepared. unfold redirect. run.
    rewrite Hc. simpl. rewrite Hn. simpl. rewrite Hs. simpl.
    rewrite Hr. done.
Qed.
End ModelFormFacts.

Lemma form_valid_flashes_and_answers_witness :
  let v := Examples.row_form_view in
  let taken := Examples.table ["invoices"] None in
  let free := Examples.table [] None in
  let error := Exception_ "IntegrityError" "duplicate key" in
  (fst (SingleObjectCreateView.form_valid v "invoices" taken)
   = Ret (Response "invoices")
   /\ In (Flashed ERROR (SingleObjectCreateView.not_created "tag" error))
         (trace (snd (SingleObjectCreateView.form_valid v "invoices" taken))))
  /\ fst (SingleObjectCreateView.form_valid v "invoices" free)
     = Ret (HttpResponseRedirect "/tags/")
  /\ fst (SingleObjectEditView.form_valid v "invoices" taken)
     = Ret (Response "invoices")
  /\ fst (SingleObjectEditView.form_valid v "invoices" free)
     = Ret (HttpResponseRedirect "/tags/").
Proof.
  intros v taken free error.
  pose proof (form_valid_flashes_and_answers v "invoices" taken eq_refl)
    as (Hcreate_fails & _ & Hedit_fails & _).
  pose proof (form_valid_flashes_and_answers v "invoices" free eq_refl)
    as (_ & Hcreate & _ & Hedit).
  split; [|split; [|split]].
  - rewrite (Hcreate_fails error ["invoices"] ["invoices"] ["invoices"]
               ["invoices"] ["invoices"] tt "tag" "invoices"
               eq_refl eq_refl eq_refl eq_refl eq_refl eq_refl).
    split; [reflexivity|]. simpl. tauto.
  - rewrite (Hcreate [] ["invoices"] ["invoices"] ["invoices"] ["invoices"]
               tt "tag" "/tags/" eq_refl eq_refl eq_refl eq_refl eq_refl).
    reflexivity.
  - rewrite (Hedit_fails error ["invoices"] ["invoices"] ["invoices"]
               ["invoices"] tt "tag" "invoices"
               eq_refl eq_refl eq_refl eq_refl eq_refl).
    reflexivity.
  - rewrite (Hedit [] [] ["invoices"] ["invoices"] tt "tag" "/tags/"
               eq_refl eq_refl eq_refl eq_refl).
    reflexivity.
Defined.

(** ** [SingleObjectDeleteView] *)

Section DeleteFacts.
Import SingleObjectDeleteView.
Context {W Request Obj O R : Type}.
Variable v : view W Request Obj O R.
Variable request : Request.
Variables (s : state W (option Obj)) (obj : Obj) (w1 w2 w3 : W)
          (context : dict (value O)) (object_name : string).
Hypothesis found : get_object v (world s) = (Ret obj, w1).
Hypothesis context_made : super_get_context_data v w1 = (Ret context, w2).
Hypothesis named :
  get_object_name v (dict_set context "delete_view" (VBool true)) w2
  = (Ret object_name, w3).

(** C4: [delete] flashes a success message and returns what the
    [delete] of the parent class returns when that one returns; when it
    raises an exception, [delete] flashes an error message with the name
    of the object and raises the same exception. *)
Theorem delete_flashes_and_raises_again :
  (forall (answer : response R) (w4 : W),
     super_delete v request w3 = (Ret answer, w4) ->
     delete v request s
     = (Ret answer,
        {| world := w4; self := Some obj;
           trace := trace s ++
             [Called "get_object" []; Called "super().get_context_data" [];
              Called "get_object_name" []; Called "super().delete" [];
              Flashed SUCCESS (deleted object_name)] |}))
  /\ (forall (e : exn) (w4 : W),
        super_delete v request w3 = (Raise e, w4) ->
        is_Exception e = true ->
        delete v request s
        = (Raise e,
           {| world := w4; self := Some obj;
              trace := trace s ++
                [Called "get_object" []; Called "super().get_context_data" [];
                 Called "get_object_name" []; Called "super().delete" [];
                 Flashed ERROR (not_deleted object_name e)] |})
        /\ not_deleted object_name e
           = Format "%(object)s not deleted, error: %(error)s."
                    [Named "object" (Str object_name); Named "error" (Exn e)]).
Proof.
  split.
  - intros answer w4 Hd. unfold delete, get_context_data. run.
    rewrite found. simpl. rewrite context_made. simpl. rewrite named. simpl.
    rewrite Hd. done.
  - intros e w4 Hd He. split; [|reflexivity].
    unfold delete, get_context_data. run.
    rewrite found. simpl. rewrite context_made. simpl. rewrite named. simpl.
    rewrite Hd, He. done.
Qed.
End DeleteFacts.

Lemma delete_flashes_and_raises_again_witness :
  let error := Exception_ "DoesNotExist" "no such row" in
  SingleObjectDeleteView.delete (Examples.row_delete_view "invoices") tt
    (Examples.table ["invoices"; "letters"] None)
  = (Ret (HttpResponseRedirect "/tags/"),
     {| world := ["letters"]; self := Some "invoices";
        trace :=
          [Called "get_object" []; Called "super().get_context_data" [];
           Called "get_object_name" []; Called "super().delete" [];
           Flashed SUCCESS (SingleObjectDeleteView.deleted "invoices")] |})
  /\ SingleObjectDeleteView.delete (Examples.row_delete_view "invoices") tt
       (Examples.table ["letters"] None)
     = (Raise error,
        {| world := ["letters"]; self := Some "invoices";
           trace :=
             [Called "get_object" []; Called "super().get_context_data" [];
              Called "get_object_name" []; Called "super().delete" [];
              Flashed ERROR
                (SingleObjectDeleteView.not_deleted "invoices" error)] |}).
Proof.
  intros error. split.
  - apply (proj1 (delete_flashes_and_raises_again
                    (Examples.row_delete_view "invoices") tt
                    (Examples.table ["invoices"; "letters"] None)
                    (obj := "invoices") (object_name := "invoices")
                    eq_refl eq_refl eq_refl)).
    reflexivity.
  - apply (proj2 (delete_flashes_and_raises_again
                    (Examples.row_delete_view "invoices") tt
                    (Examples.table ["letters"] None)
                    (obj := "invoices") (object_name := "invoices")
                    eq_refl eq_refl eq_refl));
      reflexivity.
Defined.

(** ** [AssignRemoveView.process_form] *)

Lemma calls_of_app (method : string) (events events' : list event) :
  calls_of method (events ++ events')
  = calls_of method events ++ calls_of method events'.
Proof. unfold calls_of. apply flat_map_app. Qed.

Section AssignRemoveFacts.
Import AssignRemoveView.
Context {W Obj Form : Type}.
Variable v : view W Obj Form.
Variable items_function : ext W (items (grouped v)).
Variable action_function : selection_obj Obj -> ext W unit.

#[local] Abbreviation body := (transfer v items_function action_function).

Lemma transfer_action_fails (s s1 s2 : state W unit)
    (flat_list : list (string * string)) (selection label : string)
    (item : selection_obj Obj) (e : exn) (w3 : W) :
  get_flat_list v items_function s = (Ret flat_list, s1) ->
  dict_of_pairs_get flat_list selection = Some label ->
  get_selection_obj v selection s1 = (Ret item, s2) ->
  action_function item (world s2) = (Raise e, w3) ->
  is_Exception e = true ->
  body selection s
  = if DEBUG v then
      (Raise e,
       {| world := w3; self := self s2;
          trace := trace s2 ++ [Called "action_function" [selection]] |})
    else
      (Ret tt,
       {| world := w3; self := self s2;
          trace := trace s2 ++ [Called "action_function" [selection];
                                Flashed ERROR (unable_to_transfer label)] |}).
Proof.
  intros Hf Hl Ho Ha He. unfold body, transfer. unfold bind at 1.
  rewrite Hf. rewrite Hl. unfold bind at 1. unfold ret at 1.
  unfold bind at 1. rewrite Ho.
  unfold try_except, try_except_else, call. rewrite Ha, He.
  destruct (DEBUG v); [reflexivity|]. unfold flash, log. done.
Qed.

Lemma transfer_attempts (s : state W unit) (selection : string) :
  DEBUG v = false ->
  (forall w, exists choices w',
      items_function w = (Ret choices, w')
      /\ dict_of_pairs_get (flatten (grouped v) choices) selection <> None) ->
  (decode_content_type v = true ->
   (exists model pk, split "," selection = [model; pk])
   /\ forall model pk w, exists obj w',
        get_object_for_this_type v model pk w = (Ret obj, w')) ->
  (forall item w e w',
      action_function item w = (Raise e, w') -> is_Exception e = true) ->
  exists s',
    body selection s = (Ret tt, s')
    /\ calls_of "action_function" (trace s')
       = calls_of "action_function" (trace s) ++ [[selection]].
Proof.
  intros Hdebug Hitems Hdecode Haction.
  destruct (Hitems (world s)) as (choices & w1 & Hi & Hlabel).
  destruct (dict_of_pairs_get (flatten (grouped v) choices) selection)
    as [label|] eqn:El; [clear Hlabel|congruence].
  assert (Hflat : get_flat_list v items_function s
                  = (Ret (flatten (grouped v) choices),
                     {| world := w1; self := self s;
                        trace := trace s ++ [Called "items_function" []] |})).
  { unfold get_flat_list, bind, call, ret. now rewrite Hi. }
  assert (Hobj : exists item s2,
             get_selection_obj v selection
               {| world := w1; self := self s;
                  trace := trace s ++ [Called "items_function" []] |}
             = (Ret item, s2)
             /\ calls_of "action_function" (trace s2)
                = calls_of "action_function" (trace s)).
  { unfold get_selection_obj.
    destruct (decode_content_type v) eqn:Ed.
    - destruct (Hdecode eq_refl) as ((model & pk & Hsplit) & Hget).
      rewrite Hsplit. destruct (Hget model pk w1) as (obj & w2 & Hg).
      unfold bind, call, ret. simpl. rewrite Hg.
      eexists _, _. split; [reflexivity|]. simpl.
      rewrite !calls_of_app. simpl. now rewrite !app_nil_r.
    - eexists _, _. split; [reflexivity|]. simpl.
      rewrite calls_of_app. simpl. now rewrite app_nil_r. }
  destruct Hobj as (item & s2 & Hobj & Hcalls).
  destruct (action_function item (world s2)) as [[[]|e] w3] eqn:Ea.
  - eexists. split.
    + unfold body, transfer. unfold bind at 1. rewrite Hflat, El.
      unfold bind at 1. unfold ret at 1. unfold bind at 1. rewrite Hobj.
      unfold try_except, try_except_else, call. rewrite Ea. reflexivity.
    + simpl. rewrite calls_of_app, Hcalls. reflexivity.
  - eexists. split.
    + rewrite (transfer_action_fails _ _ Hflat El Hobj Ea (Haction _ _ _ _ Ea)).
      rewrite Hdebug. reflexivity.
    + simpl. rewrite calls_of_app, Hcalls. reflexivity.
Qed.

(** C10: [process_form] runs the loop over the selection of a valid
    submitted form; when the action raises an exception for a selection
    and [DEBUG] is off, an error message with the label of the selection
    is flashed and the loop goes on with the selections that are left, so
    that the action is tried on every selection; when [DEBUG] is on, the
    exception leaves [process_form]. *)
Theorem process_form_continues_past_failures (prefix : string) :
  (forall (s : state W unit) choices w1 form w2 w3,
     existsb (String.eqb (prefix ++ "-submit")%string) (POST_keys v) = true ->
     items_function (world s) = (Ret choices, w1) ->
     ChoiceForm v choices prefix w1 = (Ret form, w2) ->
     is_valid v form w2 = (Ret true, w3) ->
     process_form v prefix items_function action_function s
     = for_each (cleaned_data_selection v form)
         (transfer v items_function action_function)
         {| world := w3; self := self s;
            trace := trace s ++ [Called "items_function" [];
                                 Called "ChoiceForm" [prefix];
                                 Called "is_valid" [prefix]] |})
  /\ (forall (s s1 s2 : state W unit) flat_list selection label item e w3
             (rest : list string),
        get_flat_list v items_function s = (Ret flat_list, s1) ->
        dict_of_pairs_get flat_list selection = Some label ->
        get_selection_obj v selection s1 = (Ret item, s2) ->
        action_function item (world s2) = (Raise e, w3) ->
        is_Exception e = true ->
        (DEBUG v = false ->
         for_each (selection :: rest)
           (transfer v items_function action_function) s
         = for_each rest (transfer v items_function action_function)
             {| world := w3; self := self s2;
                trace := trace s2 ++
                  [Called "action_function" [selection];
                   Flashed ERROR
                     (Format "Unable to transfer selection: %s."
                             [Positional (Str label)])] |})
        /\ (DEBUG v = true ->
            for_each (selection :: rest)
              (transfer v items_function action_function) s
            = (Raise e,
               {| world := w3; self := self s2;
                  trace := trace s2 ++
                    [Called "action_function" [selection]] |})))
  /\ (forall (selections : list string),
        DEBUG v = false ->
        (forall w, exists choices w',
            items_function w = (Ret choices, w')
            /\ forall selection, In selection selections ->
                 dict_of_pairs_get (flatten (grouped v) choices) selection
                 <> None) ->
        (decode_content_type v = true ->
         (forall selection, In selection selections ->
            exists model pk, split "," selection = [model; pk])
         /\ forall model pk w, exists obj w',
              get_object_for_this_type v model pk w = (Ret obj, w')) ->
        (forall item w e w',
            action_function item w = (Raise e, w') -> is_Exception e = true) ->
        forall s : state W unit,
        exists s',
          for_each selections (transfer v items_function action_function) s
          = (Ret tt, s')
          /\ calls_of "action_function" (trace s')
             = calls_of "action_function" (trace s)
               ++ map (fun selection => [selection]) selections).
Proof.
  split; [|split].
  - intros s choices w1 form w2 w3 Hkey Hi Hf Hv.
    unfold process_form. rewrite Hkey. unfold bind, call.
    rewrite Hi. simpl. rewrite Hf. simpl. rewrite Hv. simpl.
    repeat rewrite <- app_assoc. reflexivity.
  - intros s s1 s2 flat_list selection label item e w3 rest Hf Hl Ho Ha He.
    pose proof (transfer_action_fails _ _ Hf Hl Ho Ha He) as Hbody.
    split; intros Hd; rewrite Hd in Hbody; simpl; unfold bind;
      rewrite Hbody; reflexivity.
  - intros selections Hdebug Hitems Hdecode Haction.
    induction selections as [|selection selections IH]; intros s.
    + exists s. split; [reflexivity|]. now rewrite app_nil_r.
    + destruct (transfer_attempts s selection Hdebug) as (s1 & Hb & Hc).
      * intros w. destruct (Hitems w) as (choices & w' & Hi & Hl).
        exists choices, w'. split; [assumption|].
        apply Hl. now left.
      * intros Hd. destruct (Hdecode Hd) as (Hs & Hg).
        split; [apply Hs; now left | assumption].
      * assumption.
      * destruct (IH) with (s := s1) as (s' & Hrest & Hcalls).
        -- intros w. destruct (Hitems w) as (choices & w' & Hi & Hl).
           exists choices, w'. split; [assumption|].
           intros sel Hin. apply Hl. now right.
        -- intros Hd. destruct (Hdecode Hd) as (Hs & Hg).
           split; [|assumption]. intros sel Hin. apply Hs. now right.
        -- exists s'. split.
           ++ simpl. unfold bind. rewrite Hb. exact Hrest.
           ++ rewrite Hcalls, Hc, <- app_assoc. reflexivity.
Qed.
End AssignRemoveFacts.

Lemma process_form_continues_past_failures_witness :
  let v := Examples.transfer_view false in
  let debugging := Examples.transfer_view true in
  let error := Exception_ "PermissionDenied" "b is protected" in
  let loop debug selections :=
    for_each selections
      (AssignRemoveView.transfer (Examples.transfer_view debug)
         Examples.left_list Examples.add) in
  AssignRemoveView.process_form v "left_list" Examples.left_list Examples.add
    (Examples.table [] tt)
  = loop false ["a"; "b"; "c"]
      {| world := []; self := tt;
         trace := [Called "items_function" [];
                   Called "ChoiceForm" ["left_list"];
                   Called "is_valid" ["left_list"]] |}
  /\ loop false ["b"; "c"] (Examples.table ["a"] tt)
     = loop false ["c"]
         {| world := ["a"]; self := tt;
            trace := [Called "items_function" [];
                      Called "action_function" ["b"];
                      Flashed ERROR
                        (Format "Unable to transfer selection: %s."
                                [Positional (Str "Beta")])] |}
  /\ loop true ["b"; "c"] (Examples.table ["a"] tt)
     = (Raise error,
        {| world := ["a"]; self := tt;
           trace := [Called "items_function" [];
                     Called "action_function" ["b"]] |})
  /\ exists s',
       loop false ["a"; "b"; "c"] (Examples.table [] tt) = (Ret tt, s')
       /\ calls_of "action_function" (trace s') = [["a"]; ["b"]; ["c"]].
Proof.
  intros v debugging error loop.
  pose proof (process_form_continues_past_failures v Examples.left_list
                Examples.add "left_list") as (Hform & Hfail & Hall).
  pose proof (process_form_continues_past_failures debugging
                Examples.left_list Examples.add "left_list")
    as (_ & Hraise & _).
  split; [|split; [|split]].
  - apply (Hform (Examples.table [] tt)
             [("a", "Alpha"); ("b", "Beta"); ("c", "Gamma")]
             [] ["a"; "b"; "c"] [] [] eq_refl eq_refl eq_refl eq_refl).
  - apply (Hfail (Examples.table ["a"] tt) _ _ _ "b" "Beta"
             (AssignRemoveView.Key "b") error ["a"] ["c"]
             eq_refl eq_refl eq_refl eq_refl eq_refl).
    reflexivity.
  - apply (Hraise (Examples.table ["a"] tt) _ _ _ "b" "Beta"
             (AssignRemoveView.Key "b") error ["a"] ["c"]
             eq_refl eq_refl eq_refl eq_refl eq_refl).
    reflexivity.
  - apply (Hall ["a"; "b"; "c"] eq_refl).
    + intros w. eexists _, w. split; [reflexivity|].
      intros selection [<-|[<-|[<-|[]]]]; discriminate.
    + intros H. discriminate H.
    + intros item w e w' H. unfold Examples.add in H.
      destruct (String.eqb _ "b"); [|discriminate].
      injection H as <- _. reflexivity.
Defined.

(** * More properties of the views *)

(** ** The order of the choices *)

Lemma string_compare_refl (s : string) : String.compare s s = Eq.
Proof.
  induction s as [|c s IH]; [reflexivity|].
  simpl. now rewrite ascii_compare_refl.
Qed.

Lemma string_leb_refl (s : string) : String.leb s s = true.
Proof. unfold String.leb. now rewrite string_compare_refl. Qed.

Section Stable.
Context {A : Type} (key : A -> string).

Lemma insert_sorted_filter (k : string) (x : A) (l : list A) :
  filter (fun y => String.eqb (key y) k) (insert_sorted key x l)
  = filter (fun y => String.eqb (key y) k) (x :: l).
Proof.
  induction l as [|y l IH]; [reflexivity|].
  cbn [insert_sorted].
  destruct (String.leb (key x) (key y)) eqn:E; [reflexivity|].
  cbn [filter] in *. rewrite IH.
  destruct (String.eqb_spec (key x) k) as [Hx|Hx]; [|reflexivity].
  destruct (String.eqb_spec (key y) k) as [Hy|Hy]; [|reflexivity].
  rewrite Hx, Hy, string_leb_refl in E. discriminate.
Qed.

Lemma sorted_filter (k : string) (l : list A) :
  filter (fun y => String.eqb (key y) k) (sorted key l)
  = filter (fun y => String.eqb (key y) k) l.
Proof.
  induction l as [|x l IH]; [reflexivity|].
  unfold sorted in *. cbn [fold_right].
  rewrite insert_sorted_filter. cbn [filter]. now rewrite IH.
Qed.

Lemma sorted_unique (l1 : list A) :
  forall l2,
    StronglySorted (key_le key) l1 -> StronglySorted (key_le key) l2 ->
    Permutation l1 l2 -> NoDup (map key l1) -> l1 = l2.
Proof.
  induction l1 as [|a l1 IH]; intros l2 S1 S2 P N.
  - now rewrite (Permutation_nil P).
  - destruct l2 as [|b l2];
      [apply Permutation_sym, Permutation_nil in P; discriminate|].
    inversion S1 as [|? ? S1' F1]; subst.
    inversion S2 as [|? ? S2' F2]; subst.
    inversion N as [|? ? Na N']; subst.
    assert (Hab : a = b).
    { assert (Ha : In a (b :: l2))
        by (apply (Permutation_in _ P); now left).
      assert (Hb : In b (a :: l1))
        by (apply (Permutation_in _ (Permutation_sym P)); now left).
      destruct Ha as [Ha|Ha]; [congruence|].
      destruct Hb as [Hb|Hb]; [congruence|].
      rewrite Forall_forall in F1, F2.
      pose proof (String.leb_antisym _ _ (F1 b Hb) (F2 a Ha)) as Hk.
      exfalso. apply Na. rewrite Hk. now apply in_map. }
    subst b. f_equal.
    apply IH; try assumption. now apply Permutation_cons_inv with a.
Qed.
End Stable.

Lemma generate_choices_map (choices : list AssignRemoveView.model_instance) :
  AssignRemoveView.generate_choices choices
  = sorted snd
      (map (fun choice =>
              ((AssignRemoveView.ct_model choice ++ "," ++
                AssignRemoveView.str_pk (AssignRemoveView.pk choice))%string,
               AssignRemoveView.force_text choice))
           choices).
Proof.
  unfold AssignRemoveView.generate_choices.
  now rewrite (fold_left_append
                 (fun choice =>
                    ((AssignRemoveView.ct_model choice ++ "," ++
                      AssignRemoveView.str_pk (AssignRemoveView.pk choice))%string,
                     AssignRemoveView.force_text choice))).
Qed.

(** X1: the instances that have the same text keep, among the choices,
    the order they were given in. *)
Theorem generate_choices_is_stable
    (choices : list AssignRemoveView.model_instance) (label : string) :
  filter (fun pair => String.eqb (snd pair) label)
         (AssignRemoveView.generate_choices choices)
  = map (fun choice =>
           ((AssignRemoveView.ct_model choice ++ "," ++
             AssignRemoveView.str_pk (AssignRemoveView.pk choice))%string,
            AssignRemoveView.force_text choice))
        (filter (fun choice =>
                   String.eqb (AssignRemoveView.force_text choice) label)
                choices).
Proof.
  rewrite generate_choices_map, sorted_filter.
  induction choices as [|c choices IH]; [reflexivity|].
  cbn [map filter snd]. destruct (String.eqb _ label); cbn [map]; now rewrite IH.
Qed.

(** X2: when no two instances have the same text, the choices do not
    depend on the order the instances come in. *)
Theorem generate_choices_ignores_the_input_order
    (choices choices' : list AssignRemoveView.model_instance) :
  Permutation choices choices' ->
  NoDup (map AssignRemoveView.force_text choices) ->
  AssignRemoveView.generate_choices choices
  = AssignRemoveView.generate_choices choices'.
Proof.
  intros P N. rewrite !generate_choices_map.
  set (pair_of := fun choice : AssignRemoveView.model_instance => _).
  apply (sorted_unique (key := snd)); try apply sorted_strongly.
  - rewrite !sorted_perm. now apply Permutation_map.
  - apply (Permutation_NoDup
             (l := map snd (map pair_of choices))).
    + apply Permutation_map, Permutation_sym, sorted_perm.
    + now rewrite map_map.
Qed.

Lemma generate_choices_ignores_the_input_order_witness :
  let tag := AssignRemoveView.Instance "tag" (AssignRemoveView.PkInt 7) "red" in
  let doc := AssignRemoveView.Instance "doc" (AssignRemoveView.PkInt 3) "blue" in
  AssignRemoveView.generate_choices [tag; doc]
  = AssignRemoveView.generate_choices [doc; tag].
Proof.
  intros tag doc.
  apply generate_choices_ignores_the_input_order.
  - apply perm_swap.
  - repeat constructor; simpl; intuition discriminate.
Defined.

(** ** Keys of choices and their decoding *)

Lemma split_not_nil (c : ascii) (s : string) :
  AssignRemoveView.split c s <> [].
Proof.
  destruct s as [|a s]; simpl; [discriminate|].
  destruct (Ascii.eqb a c); [discriminate|].
  destruct (AssignRemoveView.split c s); discriminate.
Qed.

Lemma split_length (c : ascii) (s : string) :
  length (AssignRemoveView.split c s) = S (count_char c s).
Proof.
  induction s as [|a s IH]; [reflexivity|].
  simpl. destruct (Ascii.eqb a c); simpl; [now rewrite IH|].
  destruct (AssignRemoveView.split c s) eqn:E; simpl in *; congruence.
Qed.

Lemma join_split (c : ascii) (s : string) :
  join (String c "") (AssignRemoveView.split c s) = s.
Proof.
  induction s as [|a s IH]; [reflexivity|].
  simpl. destruct (Ascii.eqb_spec a c) as [->|Hne].
  - pose proof (split_not_nil c s) as Hnil.
    destruct (AssignRemoveView.split c s) as [|part parts];
      [contradiction|].
    cbn [join]. simpl. now rewrite <- IH.
  - pose proof (split_not_nil c s) as Hnil.
    destruct (AssignRemoveView.split c s) as [|part parts];
      [contradiction|].
    destruct parts as [|part' parts]; simpl in *; now rewrite <- IH.
Qed.

Lemma split_without_separator (c : ascii) (s : string) :
  count_char c s = 0 -> AssignRemoveView.split c s = [s].
Proof.
  induction s as [|a s IH]; [reflexivity|].
  simpl. destruct (Ascii.eqb a c); [discriminate|].
  simpl. intros H. now rewrite (IH H).
Qed.

Lemma split_at_separator (c : ascii) (a b : string) :
  count_char c a = 0 ->
  AssignRemoveView.split c (a ++ String c b)%string
  = a :: AssignRemoveView.split c b.
Proof.
  induction a as [|x a IH]; simpl.
  - now rewrite Ascii.eqb_refl.
  - destruct (Ascii.eqb x c); [discriminate|].
    simpl. intros H. now rewrite (IH H).
Qed.

Lemma string_of_uint_no_comma (d : Decimal.uint) :
  count_char "," (NilEmpty.string_of_uint d) = 0.
Proof. induction d; simpl; [reflexivity | assumption..]. Qed.

Lemma str_int_no_comma (n : Z) : count_char "," (str_int n) = 0.
Proof.
  unfold str_int, NilZero.string_of_int, NilZero.string_of_uint.
  destruct (Z.to_int n) as [d|d]; destruct d; simpl;
    try reflexivity; apply string_of_uint_no_comma.
Qed.

Section Decoding.
Import AssignRemoveView.
Context {W Obj Form : Type}.
Variable v : view W Obj Form.
Hypothesis decoding : decode_content_type v = true.

(** X3: in a view that decodes its selections, the key that
    [generate_choices] gives an instance is read back as the content type
    and the primary key of that instance, when neither the name of the
    content type nor a primary key that is a string has a comma. *)
Theorem generated_keys_decode (choices : list model_instance)
    (choice : model_instance) (s : state W unit) (obj : Obj) (w' : W) :
  In choice choices ->
  count_char "," (ct_model choice) = 0 ->
  (forall text, pk choice = PkStr text -> count_char "," text = 0) ->
  get_object_for_this_type v (ct_model choice) (str_pk (pk choice)) (world s)
  = (Ret obj, w') ->
  let key := (ct_model choice ++ "," ++ str_pk (pk choice))%string in
  In (key, force_text choice) (generate_choices choices)
  /\ split "," key = [ct_model choice; str_pk (pk choice)]
  /\ get_selection_obj v key s
     = (Ret (Object obj),
        {| world := w'; self := self s;
           trace := trace s ++
             [Called "get_object_for_this_type"
                     [ct_model choice; str_pk (pk choice)]] |}).
Proof.
  intros Hin Hmodel Hpk Hget key.
  assert (Hsplit : split "," key = [ct_model choice; str_pk (pk choice)]).
  { unfold key. simpl. rewrite (split_at_separator _ _ _ Hmodel).
    rewrite split_without_separator; [reflexivity|].
    destruct (pk choice) as [n|text] eqn:E; simpl;
      [apply str_int_no_comma | now apply Hpk]. }
  split; [|split; [exact Hsplit|]].
  - rewrite generate_choices_map.
    apply (Permutation_in _ (Permutation_sym (sorted_perm snd _))).
    apply (in_map (fun c => ((ct_model c ++ "," ++ str_pk (pk c))%string,
                             force_text c)) _ _ Hin).
  - unfold get_selection_obj. rewrite decoding, Hsplit.
    unfold bind, call, ret. now rewrite Hget.
Qed.

Lemma selection_without_one_comma (selection : string) (s : state W unit) :
  count_char "," selection <> 1 ->
  get_selection_obj v selection s = (Raise (ValueError "unpack"), s).
Proof.
  intros Hc. pose proof (split_length "," selection) as Hlen.
  unfold get_selection_obj. rewrite decoding.
  destruct (split "," selection) as [|a [|b [|c rest]]];
    simpl in Hlen; try reflexivity.
  exfalso. apply Hc. congruence.
Qed.

(** X4: a selection that does not have exactly one comma cannot be
    decoded: [ValueError] is raised before anything is looked up, and a
    selection with exactly one comma is a content type and a primary key
    around the comma. *)
Theorem selection_needs_one_comma (selection : string) (s : state W unit) :
  (count_char "," selection <> 1 ->
   get_selection_obj v selection s = (Raise (ValueError "unpack"), s))
  /\ (count_char "," selection = 1 ->
      exists model pk,
        split "," selection = [model; pk]
        /\ selection = (model ++ "," ++ pk)%string
        /\ get_selection_obj v selection s
           = (obj <- call "get_object_for_this_type" [model; pk]
                       (get_object_for_this_type v model pk) ;;
              ret (Object obj)) s).
Proof.
  split; [apply selection_without_one_comma|]. intros Hc.
  pose proof (split_length "," selection) as Hlen.
  pose proof (join_split "," selection) as Hjoin.
  unfold get_selection_obj. rewrite decoding.
  destruct (split "," selection) as [|a [|b [|c rest]]];
    simpl in Hlen; try (rewrite Hc in Hlen; discriminate).
  exists a, b. repeat split. now rewrite <- Hjoin.
Qed.
End Decoding.

Lemma generated_keys_decode_witness :
  let tag := AssignRemoveView.Instance "tag" (AssignRemoveView.PkInt 7) "red" in
  In ("tag,7", "red") (AssignRemoveView.generate_choices [tag])
  /\ AssignRemoveView.get_selection_obj Examples.decoding_view "tag,7"
       (Examples.table [] tt)
     = (Ret (AssignRemoveView.Object "tag:7"),
        {| world := []; self := tt;
           trace := [Called "get_object_for_this_type" ["tag"; "7"]] |}).
Proof.
  intros tag.
  destruct (generated_keys_decode Examples.decoding_view eq_refl [tag] tag
              (Examples.table [] tt) (obj := "tag:7") (w' := [])
              (or_introl eq_refl) eq_refl)
    as (Hin & _ & Hget); [discriminate | reflexivity |].
  split; [exact Hin | exact Hget].
Defined.

Lemma selection_needs_one_comma_witness :
  AssignRemoveView.get_selection_obj Examples.decoding_view "tag"
    (Examples.table [] tt)
  = (Raise (ValueError "unpack"), Examples.table [] tt)
  /\ AssignRemoveView.get_selection_obj Examples.decoding_view "tag,7,8"
       (Examples.table [] tt)
     = (Raise (ValueError "unpack"), Examples.table [] tt).
Proof.
  split;
    apply (proj1 (selection_needs_one_comma Examples.decoding_view eq_refl
                    _ (Examples.table [] tt)));
    discriminate.
Defined.

Section BeforeTheAction.
Import AssignRemoveView.
Context {W Obj Form : Type}.
Variable v : view W Obj Form.
Variable items_function : ext W (items (grouped v)).
Variable action_function : selection_obj Obj -> ext W unit.

(** X5: only what the action raises is caught.  When the items no longer
    hold the selection, [KeyError] leaves the loop, with [DEBUG] on or
    off; when the selection cannot be decoded, [ValueError] does.  The
    action is not called for that selection and the selections after it
    are not looked at. *)
Theorem errors_before_the_action_propagate (s s1 : state W unit)
    (flat_list : list (string * string)) (selection : string)
    (rest : list string) :
  get_flat_list v items_function s = (Ret flat_list, s1) ->
  (dict_of_pairs_get flat_list selection = None ->
   for_each (selection :: rest)
     (transfer v items_function action_function) s
   = (Raise (KeyError selection), s1))
  /\ (forall label,
        dict_of_pairs_get flat_list selection = Some label ->
        decode_content_type v = true ->
        count_char "," selection <> 1 ->
        for_each (selection :: rest)
          (transfer v items_function action_function) s
        = (Raise (ValueError "unpack"), s1))
  /\ calls_of "action_function" (trace s1)
     = calls_of "action_function" (trace s).
Proof.
  intros Hf. split; [|split].
  - intros Hl. simpl. unfold bind at 1. unfold transfer. unfold bind at 1.
    rewrite Hf, Hl. reflexivity.
  - intros label Hl Hd Hc. simpl. unfold bind at 1. unfold transfer.
    unfold bind at 1. rewrite Hf, Hl. unfold bind at 1. unfold ret at 1.
    unfold bind at 1.
    rewrite (selection_without_one_comma v Hd selection s1 Hc).
    reflexivity.
  - unfold get_flat_list, bind, call, ret in Hf.
    destruct (items_function (world s)) as [[choices|e] w];
      [|discriminate].
    injection Hf as _ <-. simpl. rewrite calls_of_app. simpl.
    now rewrite app_nil_r.
Qed.

(** X6: [process_form] leaves everything as it is when the form of the
    list was not the one submitted, and calls neither the action nor the
    list a second time when the submitted form is not valid. *)
Theorem process_form_needs_a_valid_submitted_form (prefix : string)
    (s : state W unit) :
  (existsb (String.eqb (prefix ++ "-submit")%string) (POST_keys v) = false ->
   process_form v prefix items_function action_function s = (Ret tt, s))
  /\ (forall choices w1 form w2 w3,
        existsb (String.eqb (prefix ++ "-submit")%string) (POST_keys v)
        = true ->
        items_function (world s) = (Ret choices, w1) ->
        ChoiceForm v choices prefix w1 = (Ret form, w2) ->
        is_valid v form w2 = (Ret false, w3) ->
        process_form v prefix items_function action_function s
        = (Ret tt,
           {| world := w3; self := self s;
              trace := trace s ++ [Called "items_function" [];
                                   Called "ChoiceForm" [prefix];
                                   Called "is_valid" [prefix]] |})).
Proof.
  split.
  - intros Hkey. unfold process_form. now rewrite Hkey.
  - intros choices w1 form w2 w3 Hkey Hi Hf Hv.
    unfold process_form. rewrite Hkey. unfold bind, call, ret.
    rewrite Hi. simpl. rewrite Hf. simpl. rewrite Hv. simpl.
    repeat rewrite <- app_assoc. reflexivity.
Qed.
End BeforeTheAction.

Lemma errors_before_the_action_propagate_witness :
  for_each ["z"; "a"]
    (AssignRemoveView.transfer (Examples.transfer_view false)
       Examples.left_list Examples.add)
    (Examples.table [] tt)
  = (Raise (KeyError "z"),
     {| world := []; self := tt; trace := [Called "items_function" []] |})
  /\ for_each ["a"; "b"]
       (AssignRemoveView.transfer Examples.decoding_view
          Examples.left_list Examples.add)
       (Examples.table [] tt)
     = (Raise (ValueError "unpack"),
        {| world := []; self := tt; trace := [Called "items_function" []] |}).
Proof.
  split.
  - apply (proj1 (errors_before_the_action_propagate
                    (Examples.transfer_view false) Examples.left_list
                    Examples.add (Examples.table [] tt) "z" ["a"] eq_refl)).
    reflexivity.
  - apply (proj1 (proj2 (errors_before_the_action_propagate
                    Examples.decoding_view Examples.left_list
                    Examples.add (Examples.table [] tt) "a" ["b"] eq_refl))
             "Alpha");
      [reflexivity | reflexivity | discriminate].
Defined.

Lemma process_form_needs_a_valid_submitted_form_witness :
  AssignRemoveView.process_form (Examples.transfer_view false) "right_list"
    Examples.left_list Examples.add (Examples.table ["a"] tt)
  = (Ret tt, Examples.table ["a"] tt).
Proof.
  apply (proj1 (process_form_needs_a_valid_submitted_form
                  (Examples.transfer_view false) Examples.left_list
                  Examples.add "right_list" (Examples.table ["a"] tt))).
  reflexivity.
Defined.

(** ** More of [MultiFormView] *)

Lemma dict_set_fresh {V : Type} (d : dict V) (key : string) (v : V) :
  ~ In key (keys d) -> dict_set d key v = d ++ [(key, v)].
Proof.
  induction d as [|[k0 v0] d IH]; simpl; [reflexivity|].
  intros H. destruct (String.eqb_spec k0 key) as [->|Hne]; [tauto|].
  rewrite IH; [reflexivity | tauto].
Qed.

Lemma dict_of_pairs_distinct {V : Type} (pairs : list (string * V)) :
  NoDup (map fst pairs) -> dict_of_pairs pairs = pairs.
Proof.
  unfold dict_of_pairs.
  assert (G : forall d,
             NoDup (keys d ++ map fst pairs) ->
             fold_left (fun d kv => dict_set d (fst kv) (snd kv)) pairs d
             = d ++ pairs).
  { induction pairs as [|[k v] pairs IH]; intros d N; simpl.
    - now rewrite app_nil_r.
    - simpl in N. rewrite dict_set_fresh.
      + rewrite IH; [now rewrite <- app_assoc|].
        unfold keys. rewrite map_app. simpl. rewrite <- app_assoc. exact N.
      + apply NoDup_remove_2 in N. intros Hin. apply N.
        apply in_or_app. now left. }
  intros N. apply (G []). exact N.
Qed.

Section NeverCalls.
Context {W S : Type} (method : string).

Lemma never_calls_ret {A : Type} (a : A) :
  never_calls method (ret a : M W S A).
Proof. intros s. reflexivity. Qed.

Lemma never_calls_bind {A B : Type} (m : M W S A) (k : A -> M W S B) :
  never_calls method m -> (forall a, never_calls method (k a)) ->
  never_calls method (bind m k).
Proof.
  intros Hm Hk s. unfold bind. specialize (Hm s).
  destruct (m s) as [[a|e] s1]; simpl in *; [|exact Hm].
  now rewrite (Hk a s1).
Qed.

Lemma never_calls_call {A : Type} (name : string) (args : list string)
    (f : ext W A) :
  String.eqb name method = false ->
  never_calls method (call name args f : M W S A).
Proof.
  intros Hn s. unfold call. destruct (f (world s)) as [r w]. simpl.
  rewrite calls_of_app. simpl. rewrite Hn. apply app_nil_r.
Qed.

Lemma never_calls_comprehension {A B : Type} (f : A -> M W S B)
    (xs : list A) :
  (forall x, never_calls method (f x)) ->
  never_calls method (comprehension xs f).
Proof.
  intros Hf. induction xs as [|x xs IH]; simpl.
  - apply never_calls_ret.
  - apply never_calls_bind; [apply Hf|]. intros y.
    apply never_calls_bind; [exact IH|]. intros ys. apply never_calls_ret.
Qed.
End NeverCalls.

Section MoreMultiFormFacts.
Import MultiFormView.
Context {W Form Klass Initial Data Ctx R : Type}.
Implicit Types (v : view W Form Klass Initial Data Ctx R)
               (s : state W unit) (forms : dict Form).

(** X7: a form is given the data of the request exactly when the
    method of the request is [POST] or [PUT], and the prefix it is given
    is the one [prefixes] has under its name, the prefix of the view
    when there is none. *)
Theorem form_kwargs_follow_the_request v (form_name : string) s
    (kwargs : form_kwargs Initial Data) (s' : state W unit) :
  get_form_kwargs v form_name s = (Ret kwargs, s') ->
  (request_method v = "POST" \/ request_method v = "PUT" ->
   kw_data kwargs = Some (request_data v))
  /\ (request_method v <> "POST" -> request_method v <> "PUT" ->
      kw_data kwargs = None)
  /\ (forall p, dict_get (prefixes v) form_name = Some p ->
        kw_prefix kwargs = Some p)
  /\ (dict_get (prefixes v) form_name = None ->
      kw_prefix kwargs = prefix v).
Proof.
  unfold get_form_kwargs, bind, get_prefix.
  destruct (get_initial v form_name s) as [[initial|e] s1]; [|discriminate].
  destruct (String.eqb_spec (request_method v) "POST") as [Hp|Hp];
    destruct (String.eqb_spec (request_method v) "PUT") as [Hu|Hu];
    simpl; unfold ret; intros H; injection H as <- <-; simpl;
    (split; [|split; [|split]]);
    try tauto; try (intros p Hd; now rewrite Hd);
    try (intros Hd; now rewrite Hd).
Qed.

(** X8: the forms come under the names of the form classes and in their
    order. *)
Theorem get_forms_keeps_the_order v (classes : dict Klass) s forms
    (s' : state W unit) :
  NoDup (keys classes) ->
  get_forms v classes s = (Ret forms, s') ->
  keys forms = keys classes.
Proof.
  intros N. unfold get_forms. unfold bind at 1.
  destruct (comprehension classes _ s) as [[pairs|e] s1] eqn:E;
    [|discriminate].
  unfold ret. intros H. injection H as <- <-.
  pose proof (comprehension_tagged _ _ _ _ E) as Hk.
  rewrite dict_of_pairs_distinct; [exact Hk|].
  rewrite Hk. exact N.
Qed.

Lemma get_forms_never_validates v (classes : dict Klass) :
  never_calls "is_valid" (get_forms v classes).
Proof.
  unfold get_forms. apply never_calls_bind; [|intros; apply never_calls_ret].
  apply never_calls_comprehension. intros [form_name klass].
  apply never_calls_bind; [|intros; apply never_calls_ret].
  unfold _create_form. apply never_calls_bind.
  - unfold get_form_kwargs. apply never_calls_bind.
    + unfold get_initial.
      destruct (dict_get (initial_methods v) _);
        [now apply never_calls_call | apply never_calls_ret].
    + intros initial.
      destruct (_ || _)%bool; apply never_calls_ret.
  - intros kwargs. simpl.
    destruct (dict_get (create_form_methods v) _);
      now apply never_calls_call.
Qed.

(** X9: [get] does not ask any form whether it is valid. *)
Theorem get_never_validates v : never_calls "is_valid" (get v).
Proof.
  unfold get. apply never_calls_bind; [apply get_forms_never_validates|].
  intros forms. apply never_calls_bind.
  - unfold get_context_data.
    apply never_calls_bind; [apply never_calls_ret|].
    intros forms'. now apply never_calls_call.
  - intros context.
    apply never_calls_bind; [now apply never_calls_call|].
    intros r. apply never_calls_ret.
Qed.

(** X10: [MultiFormView] has no [all_forms_valid]: in a view that
    defines neither that method nor a method for one of the forms,
    [forms_valid] raises [AttributeError] and does nothing else. *)
Theorem forms_valid_needs_a_handler v forms s :
  (forall name form, In (name, form) forms ->
     dict_get (form_valid_methods v) (name ++ "_form_valid") = None) ->
  all_forms_valid v = None ->
  forms_valid v forms s = (Raise (AttributeError "all_forms_valid"), s).
Proof.
  intros Hnone Hall. unfold forms_valid.
  rewrite forms_valid_from_no_handler by assumption.
  simpl. rewrite Hall. reflexivity.
Qed.
End MoreMultiFormFacts.

Lemma form_kwargs_follow_the_request_witness :
  let kwargs method name :=
    MultiFormView.get_form_kwargs
      (Examples.plain_multi_form_view [("avatar", true)] method) name
      Examples.request in
  (exists k s', kwargs "GET" "avatar" = (Ret k, s')
                /\ MultiFormView.kw_data k = None
                /\ MultiFormView.kw_prefix k = Some "picture")
  /\ (exists k s', kwargs "PUT" "profile" = (Ret k, s')
                   /\ MultiFormView.kw_data k = Some tt
                   /\ MultiFormView.kw_prefix k = Some "form").
Proof.
  intros kwargs. split; eexists _, _; (split; [reflexivity|]).
  - pose proof (form_kwargs_follow_the_request
                  (Examples.plain_multi_form_view [("avatar", true)] "GET")
                  "avatar" Examples.request eq_refl) as (_ & Hget & Hp & _).
    split; [apply Hget; discriminate | apply Hp; reflexivity].
  - pose proof (form_kwargs_follow_the_request
                  (Examples.plain_multi_form_view [("avatar", true)] "PUT")
                  "profile" Examples.request eq_refl) as (Hput & _ & _ & Hv).
    split; [apply Hput; now right | apply Hv; reflexivity].
Defined.

Lemma get_forms_keeps_the_order_witness :
  exists forms s',
    MultiFormView.get_forms
      (Examples.plain_multi_form_view [] "POST")
      [("profile", true); ("avatar", false)] Examples.request
    = (Ret forms, s')
    /\ keys forms = ["profile"; "avatar"].
Proof.
  eexists _, _. split; [reflexivity|].
  eapply (get_forms_keeps_the_order
            (Examples.plain_multi_form_view [] "POST")
            [("profile", true); ("avatar", false)] Examples.request).
  - repeat constructor; simpl; intuition discriminate.
  - reflexivity.
Defined.

Lemma forms_valid_needs_a_handler_witness :
  MultiFormView.forms_valid
    (Examples.plain_multi_form_view [("profile", true)] "POST")
    [("profile", {| Examples.bound := true; Examples.validates := true |})]
    Examples.request
  = (Raise (AttributeError "all_forms_valid"), Examples.request).
Proof.
  apply forms_valid_needs_a_handler; [|reflexivity].
  intros name form _. reflexivity.
Defined.


(** ** More of the create, edit and delete views *)

Section MoreModelFormFacts.
Import ModelForm.
Context {W Form Obj Value Ctx R : Type}.
Variable v : view W Form Obj Value Ctx R.
Variable form : Form.
Variables (s s1 : state W (option Obj)) (obj : Obj)
          (save_extra_data : dict Value).
Hypothesis prepared :
  unsaved_object v form s = (Ret (obj, save_extra_data), s1).

(** X11: when [validate_unique] raises [ValidationError], the create
    view does not save: it flashes the message of the view for
    duplicates, or, when the view has none, the messages of the error
    under "Duplicate data error", and answers as [form_invalid] does.
    Another exception of [validate_unique] leaves [form_valid] as it
    is. *)
Theorem create_view_refuses_duplicates (e : exn) (w2 : W) :
  validate_unique v obj (world s1) = (Raise e, w2) ->
  (forall messages w3 w4 (context : Ctx) (r : R),
     e = ValidationError messages ->
     get_context_data v w2 = (Ret context, w3) ->
     super_form_invalid v form w3 = (Ret r, w4) ->
     exists message,
       SingleObjectCreateView.form_valid v form s
       = (Ret (Response r),
          {| world := w4; self := self s1;
             trace := trace s1 ++
               [Called "validate_unique" []; Called "get_context_data" [];
                Flashed ERROR message; Called "super().form_invalid" []] |})
       /\ (forall m, error_message_duplicate v = Some m ->
                     text_truthy (Some m) = true -> message = m)
       /\ (text_truthy (error_message_duplicate v) = false ->
           message
           = Format "Duplicate data error: %(error)s"
                    [Named "error"
                           (Str (join (String "010" "") messages))]))
  /\ (is_ValidationError e = false ->
      SingleObjectCreateView.form_valid v form s
      = (Raise e,
         {| world := w2; self := self s1;
            trace := trace s1 ++ [Called "validate_unique" []] |})).
Proof.
  intros Hu. split.
  - intros messages w3 w4 context r -> Hc Hi.
    exists (SingleObjectCreateView.duplicate_message v messages).
    split; [|split].
    + unfold SingleObjectCreateView.form_valid. unfold bind at 1.
      rewrite prepared. unfold form_invalid. run.
      rewrite Hu. simpl. rewrite Hc. simpl. rewrite Hi. done.
    + intros m Hm Ht.
      unfold SingleObjectCreateView.duplicate_message,
        SingleObjectCreateView.get_error_message_duplicate.
      now rewrite Hm, Ht.
    + unfold SingleObjectCreateView.duplicate_message,
        SingleObjectCreateView.get_error_message_duplicate.
      destruct (error_message_duplicate v) as [m|]; [|reflexivity].
      now intros ->.
  - intros He.
    unfold SingleObjectCreateView.form_valid. unfold bind at 1.
    rewrite prepared. run. rewrite Hu, He. reflexivity.
Qed.

(** X12: what [save] raises and is not an [Exception] (an interrupt, an
    exit) goes through both views: nothing is flashed and there is no
    answer. *)
Theorem form_valid_lets_exits_through (e : exn) :
  is_Exception e = false ->
  (forall w2 w3,
     validate_unique v obj (world s1) = (Ret tt, w2) ->
     save v obj save_extra_data w2 = (Raise e, w3) ->
     SingleObjectCreateView.form_valid v form s
     = (Raise e,
        {| world := w3; self := self s1;
           trace := trace s1 ++
             [Called "validate_unique" []; Called "save" []] |}))
  /\ (forall w2 w3 w4 (context : Ctx) (object_name : string),
        get_context_data v (world s1) = (Ret context, w2) ->
        get_object_name v context w2 = (Ret object_name, w3) ->
        save v obj save_extra_data w3 = (Raise e, w4) ->
        SingleObjectEditView.form_valid v form s
        = (Raise e,
           {| world := w4; self := self s1;
              trace := trace s1 ++
                [Called "get_context_data" []; Called "get_object_name" [];
                 Called "save" []] |})).
Proof.
  intros He. split.
  - intros w2 w3 Hu Hs.
    unfold SingleObjectCreateView.form_valid. unfold bind at 1.
    rewrite prepared. run. rewrite Hu. simpl. rewrite Hs, He. done.
  - intros w2 w3 w4 context object_name Hc Hn Hs.
    unfold SingleObjectEditView.form_valid. unfold bind at 1.
    rewrite prepared. run. rewrite Hc. simpl. rewrite Hn. simpl.
    rewrite Hs, He. done.
Qed.
End MoreModelFormFacts.

Lemma dict_get_set {V : Type} (d : dict V) (key : string) (v : V)
    (k : string) :
  dict_get (dict_set d key v) k
  = if String.eqb key k then Some v else dict_get d k.
Proof.
  induction d as [|[k0 v0] d IH]; simpl.
  - reflexivity.
  - destruct (String.eqb_spec k0 key) as [->|Hne]; simpl.
    + destruct (String.eqb key k); reflexivity.
    + rewrite IH. destruct (String.eqb_spec k0 k) as [->|Hk]; [|reflexivity].
      destruct (String.eqb_spec key k) as [->|]; [congruence|reflexivity].
Qed.

Section MoreDeleteFacts.
Import SingleObjectDeleteView.
Context {W Request Obj O R : Type}.
Variable v : view W Request Obj O R.

(** X13: the context of the delete view says [delete_view] is [True],
    whatever the context of the parent class said, and says of every
    other name what the parent class said. *)
Theorem delete_context_is_marked (s : state W (option Obj))
    (context : dict (value O)) (w1 : W) :
  super_get_context_data v (world s) = (Ret context, w1) ->
  exists marked s',
    get_context_data v s = (Ret marked, s')
    /\ dict_get marked "delete_view" = Some (VBool true)
    /\ (forall name, name <> "delete_view" ->
          dict_get marked name = dict_get context name)
    /\ forall name, In name (keys marked)
                    <-> name = "delete_view" \/ In name (keys context).
Proof.
  intros H. unfold get_context_data, bind, call, ret. rewrite H.
  eexists _, _. split; [reflexivity|]. split; [|split].
  - rewrite dict_get_set. reflexivity.
  - intros name Hne. rewrite dict_get_set.
    destruct (String.eqb_spec "delete_view" name); [congruence|reflexivity].
  - intros name. apply dict_set_keys.
Qed.

(** X14: what the [delete] of the parent class raises and is not an
    [Exception] leaves [delete] without a message. *)
Theorem delete_lets_exits_through (request : Request)
    (s : state W (option Obj)) (obj : Obj) (w1 w2 w3 w4 : W)
    (context : dict (value O)) (object_name : string) (e : exn) :
  get_object v (world s) = (Ret obj, w1) ->
  super_get_context_data v w1 = (Ret context, w2) ->
  get_object_name v (dict_set context "delete_view" (VBool true)) w2
  = (Ret object_name, w3) ->
  super_delete v request w3 = (Raise e, w4) ->
  is_Exception e = false ->
  delete v request s
  = (Raise e,
     {| world := w4; self := Some obj;
        trace := trace s ++
          [Called "get_object" []; Called "super().get_context_data" [];
           Called "get_object_name" []; Called "super().delete" []] |}).
Proof.
  intros Ho Hc Hn Hd He. unfold delete, get_context_data. run.
  rewrite Ho. simpl. rewrite Hc. simpl. rewrite Hn. simpl.
  rewrite Hd, He. done.
Qed.
End MoreDeleteFacts.

(** ** More of the guarded views *)

Section MoreGuardedFacts.
Import Guarded.
Context {W Queryset V : Type}.
Implicit Types (i : imports V) (v : view W Queryset V)
               (s : state W (attrs Queryset)) (g : guarded).

(** X15: the source queryset is asked for once.  After [get_queryset]
    has fallen back on [get_source_queryset] and stored its result, a
    second [get_queryset] whose framework lookup answers does not call
    [get_source_queryset] again. *)
Theorem get_source_queryset_runs_once g i v s
    (e : exn) (w1 w2 w3 w4 : W) (source q q' : Queryset) :
  super_get_queryset v (queryset (self s)) (world s) = (Raise e, w1) ->
  is_ImproperlyConfigured e = true ->
  get_source_queryset v w1 = (Ret source, w2) ->
  super_get_queryset v (Some source) w2 = (Ret q, w3) ->
  super_get_queryset v (Some source) w3 = (Ret q', w4) ->
  let twice := (_ <- get_queryset g i v ;; get_queryset g i v) s in
  (exists returned, fst twice = Ret returned)
  /\ queryset (self (snd twice)) = Some source
  /\ calls_of "get_source_queryset" (trace (snd twice))
     = calls_of "get_source_queryset" (trace s) ++ [[]]
  /\ calls_of "super().get_queryset" (trace (snd twice))
     = calls_of "super().get_queryset" (trace s) ++ [[]; []; []].
Proof.
  intros H1 He Hs H2 H3 twice. subst twice. unfold bind.
  destruct (get_queryset_after_lookup g i v s
              (restricted_queryset_fallback v s H1 He Hs H2))
    as (Hr & Hq & Hw & Ht).
  destruct (get_queryset g i v s) as [r s1]. simpl in Hr, Hq, Hw, Ht.
  subst r.
  assert (Hfound : super_get_queryset v (queryset (self s1)) (world s1)
                   = (Ret q', w4)) by (rewrite Hq, Hw; exact H3).
  destruct (get_queryset_after_lookup g i v s1
              (restricted_queryset_found v s1 Hfound))
    as (Hr' & Hq' & _ & Ht').
  simpl in Hq', Ht'. simpl. rewrite Hr', Hq', Ht', Ht, Hq.
  split; [eauto|]. split; [reflexivity|].
  rewrite !calls_of_app. simpl. rewrite !app_nil_r, <- !app_assoc.
  split; reflexivity.
Qed.

(** X16: the icon agrees with the order of the queryset when the sort
    order is given: with a sort field, the icon is the one that points
    down exactly when the queryset is ordered by the field itself, and
    the one that points up when it is ordered by the field with a dash;
    without a sort order there is no icon, and the queryset is ordered
    with a dash. *)
Theorem sort_icon_agrees_with_the_order {Icon : Type} i v s
    (down up : Icon) (q : Queryset) (s1 : state W (attrs Queryset))
    (c : ascii) (field : string) :
  TEXT_SORT_ORDER_CHOICE_ASCENDING i <> "" ->
  restricted_queryset v s = (Ret q, s1) ->
  QueryDict_get (GET v) (TEXT_SORT_FIELD_PARAMETER i)
  = Some (String c field) ->
  let icon := SingleObjectListView.get_sort_icon i down up v in
  let returned := fst (get_queryset SingleObjectListView i v s) in
  (icon = Some down /\ returned = Ret (order_by v q (String c field)))
  \/ (icon = Some up
      /\ returned = Ret (order_by v q ("-" ++ String c field)%string)
      /\ str_truthy (get_sort_order i v) = true)
  \/ (icon = None
      /\ returned = Ret (order_by v q ("-" ++ String c field)%string)
      /\ str_truthy (get_sort_order i v) = false).
Proof.
  intros Hasc Hq Hf icon returned. subst icon returned.
  destruct (get_queryset_after_lookup SingleObjectListView i v s Hq)
    as (Hr & _). rewrite Hr, Hf. clear Hr.
  unfold SingleObjectListView.get_sort_icon, get_sort_order.
  destruct (QueryDict_get (GET v) (TEXT_SORT_ORDER_PARAMETER i))
    as [order|] eqn:Eo.
  - destruct (str_eq (Some order) (TEXT_SORT_ORDER_CHOICE_ASCENDING i))
      eqn:Ea.
    + left. apply str_eq_true in Ea. injection Ea as ->.
      destruct (TEXT_SORT_ORDER_CHOICE_ASCENDING i); [congruence|].
      split; reflexivity.
    + destruct order as [|c' order]; simpl.
      * right. right. repeat split. 
      * right. left. repeat split.
  - right. right. repeat split.
Qed.
End MoreGuardedFacts.

(** ** The page of [AssignRemoveView] *)

Lemma existsb_eqb_In (key : string) (l : list string) :
  existsb (String.eqb key) l = true <-> In key l.
Proof.
  rewrite existsb_exists. split.
  - intros (x & Hin & Heq). apply String.eqb_eq in Heq. now subst.
  - intros Hin. exists key. split; [assumption | apply String.eqb_refl].
Qed.

Lemma existsb_eqb_not_In (key : string) (l : list string) :
  ~ In key l -> existsb (String.eqb key) l = false.
Proof.
  intros H. destruct (existsb (String.eqb key) l) eqn:E; [|reflexivity].
  apply existsb_eqb_In in E. contradiction.
Qed.

Section PageFacts.
Import AssignRemoveView AssignRemovePage.
Context {W Obj Form Icon O R : Type}.
Variable p : page W Obj Form Icon O R.

(** X17: a [POST] that submits neither list does what a [GET] does:
    nothing is added, nothing is removed, and the page is rendered. *)
Theorem post_without_a_submitted_list_is_get
    (s : state W (attrs Form)) :
  ~ In "left_list-submit" (POST_keys (base p)) ->
  ~ In "right_list-submit" (POST_keys (base p)) ->
  post p s = get p s.
Proof.
  intros Hl Hr. apply existsb_eqb_not_In in Hl, Hr.
  unfold post, without_attrs, process_form.
  unfold LEFT_LIST_NAME, RIGHT_LIST_NAME.
  change ("left_list" ++ "-submit")%string with "left_list-submit".
  change ("right_list" ++ "-submit")%string with "right_list-submit".
  rewrite Hl, Hr. unfold bind, ret. cbn [world self trace].
  destruct s. reflexivity.
Qed.

(** X18: a view that defines no [left_list] cannot be shown: [get]
    raises [NotImplementedError] before it builds a form, and so does a
    [POST] that submits the left list. *)
Theorem left_list_has_to_be_defined (s : state W (attrs Form)) :
  left_list_method p = None ->
  get p s
  = (Raise NotImplementedError,
     {| world := world s; self := self s;
        trace := trace s ++ [Called "left_list" []] |})
  /\ (In "left_list-submit" (POST_keys (base p)) ->
      post p s
      = (Raise NotImplementedError,
         {| world := world s; self := self s;
            trace := trace s ++ [Called "items_function" []] |})).
Proof.
  intros Hnone. split.
  - unfold get, left_list. rewrite Hnone. reflexivity.
  - intros Hin. apply existsb_eqb_In in Hin.
    unfold post, without_attrs, process_form, left_list.
    unfold LEFT_LIST_NAME.
    change ("left_list" ++ "-submit")%string with "left_list-submit".
    rewrite Hin, Hnone. reflexivity.
Qed.
End PageFacts.

Lemma create_view_refuses_duplicates_witness :
  let custom := Plain "That tag exists." in
  let error := ValidationError ["Tag with this Label already exists."] in
  (exists message,
     SingleObjectCreateView.form_valid
       (Examples.checked_form_view (Some custom) false) "invoices"
       (Examples.table ["invoices"] None)
     = (Ret (Response "invoices"),
        {| world := ["invoices"]; self := Some "invoices";
           trace := [Called "form.save" ["commit=False"];
                     Called "validate_unique" []; Called "get_context_data" [];
                     Flashed ERROR message;
                     Called "super().form_invalid" []] |})
     /\ message = custom)
  /\ (exists message,
        fst (SingleObjectCreateView.form_valid
               (Examples.checked_form_view None false) "invoices"
               (Examples.table ["invoices"] None))
        = Ret (Response "invoices")
        /\ message
           = Format "Duplicate data error: %(error)s"
                    [Named "error"
                           (Str "Tag with this Label already exists.")]).
Proof.
  intros custom error. split.
  - destruct (proj1 (create_view_refuses_duplicates
                       (Examples.checked_form_view (Some custom) false)
                       "invoices" (Examples.table ["invoices"] None)
                       eq_refl (e := error) (w2 := ["invoices"]) eq_refl)
                _ ["invoices"] ["invoices"] tt "invoices"
                eq_refl eq_refl eq_refl)
      as (message & Hrun & Hcustom & _).
    exists message. split; [exact Hrun|].
    apply Hcustom; reflexivity.
  - destruct (proj1 (create_view_refuses_duplicates
                       (Examples.checked_form_view None false)
                       "invoices" (Examples.table ["invoices"] None)
                       eq_refl (e := error) (w2 := ["invoices"]) eq_refl)
                _ ["invoices"] ["invoices"] tt "invoices"
                eq_refl eq_refl eq_refl)
      as (message & Hrun & _ & Hdefault).
    exists message. split; [now rewrite Hrun|].
    apply Hdefault. reflexivity.
Defined.

Lemma form_valid_lets_exits_through_witness :
  let interrupt := BaseException_ "KeyboardInterrupt" "" in
  SingleObjectCreateView.form_valid (Examples.checked_form_view None true)
    "invoices" (Examples.table [] None)
  = (Raise interrupt,
     {| world := []; self := Some "invoices";
        trace := [Called "form.save" ["commit=False"];
                  Called "validate_unique" []; Called "save" []] |})
  /\ fst (SingleObjectEditView.form_valid
            (Examples.checked_form_view None true) "invoices"
            (Examples.table [] None))
     = Raise interrupt.
Proof.
  intros interrupt.
  pose proof (form_valid_lets_exits_through
                (Examples.checked_form_view None true) "invoices"
                (Examples.table [] None) eq_refl interrupt eq_refl)
    as (Hcreate & Hedit).
  split.
  - apply (Hcreate [] []); reflexivity.
  - rewrite (Hedit [] [] [] tt "tag"); reflexivity.
Defined.

Lemma delete_context_is_marked_witness :
  exists marked s',
    SingleObjectDeleteView.get_context_data Examples.interrupted_delete_view
      (Examples.table [] None)
    = (Ret marked, s')
    /\ dict_get marked "delete_view" = Some (VBool true)
    /\ dict_get marked "title" = Some (VOther tt).
Proof.
  destruct (delete_context_is_marked Examples.interrupted_delete_view
              (Examples.table [] None) (w1 := []) eq_refl)
    as (marked & s' & Hrun & Hmark & Hother & _).
  exists marked, s'. split; [exact Hrun|]. split; [exact Hmark|].
  rewrite Hother; [reflexivity | discriminate].
Defined.

Lemma delete_lets_exits_through_witness :
  SingleObjectDeleteView.delete Examples.interrupted_delete_view tt
    (Examples.table ["invoices"] None)
  = (Raise (BaseException_ "KeyboardInterrupt" ""),
     {| world := ["invoices"]; self := Some "invoices";
        trace := [Called "get_object" []; Called "super().get_context_data" [];
                  Called "get_object_name" []; Called "super().delete" []] |}).
Proof.
  apply (delete_lets_exits_through Examples.interrupted_delete_view tt
           (Examples.table ["invoices"] None) (obj := "invoices")
           (w1 := ["invoices"]) (w2 := ["invoices"]) (w3 := ["invoices"])
           (object_name := "invoices")
           eq_refl eq_refl eq_refl eq_refl eq_refl).
Defined.

Lemma get_source_queryset_runs_once_witness :
  let g := Guarded.SingleObjectListView in
  let v := Examples.document_list [("_sort_field", "label")] in
  let twice :=
    (_ <- Guarded.get_queryset g Examples.imports v ;;
     Guarded.get_queryset g Examples.imports v) Examples.fresh in
  calls_of "get_source_queryset" (trace (snd twice)) = [[]]
  /\ calls_of "super().get_queryset" (trace (snd twice)) = [[]; []; []].
Proof.
  intros g v twice.
  destruct (get_source_queryset_runs_once g Examples.imports v Examples.fresh
              (e := ImproperlyConfigured "missing a QuerySet")
              (w1 := tt) (w2 := tt) (w3 := tt) (w4 := tt)
              (source := Examples.documents) (q := Examples.documents)
              (q' := Examples.documents)
              eq_refl eq_refl eq_refl eq_refl eq_refl)
    as (_ & _ & Hsource & Hlookup).
  split; [exact Hsource | exact Hlookup].
Defined.

Lemma sort_icon_agrees_with_the_order_witness :
  let v :=
    Examples.document_list [("_sort_field", "label"); ("_sort_order", "asc")] in
  SingleObjectListView.get_sort_icon Examples.imports "down" "up" v
  = Some "down"
  /\ fst (Guarded.get_queryset Guarded.SingleObjectListView Examples.imports
            v Examples.fresh)
     = Ret (Examples.order_by Examples.documents "label").
Proof.
  intros v.
  destruct (sort_icon_agrees_with_the_order Examples.imports v Examples.fresh
              "down" "up" (c := "l") (field := "abel")
              (fun H => eq_ind "asc"
                          (fun t => match t with
                                    | EmptyString => False
                                    | String _ _ => True
                                    end) I "" H)
              eq_refl eq_refl)
    as [H|[(Hicon & _)|(Hicon & _)]];
    [exact H | discriminate Hicon | discriminate Hicon].
Defined.

Lemma post_without_a_submitted_list_is_get_witness :
  AssignRemovePage.post
    (Examples.page_view ["csrfmiddlewaretoken"] true) (Examples.unshown ["a"])
  = AssignRemovePage.get
      (Examples.page_view ["csrfmiddlewaretoken"] true)
      (Examples.unshown ["a"]).
Proof.
  apply post_without_a_submitted_list_is_get;
    simpl; intuition discriminate.
Defined.

Lemma left_list_has_to_be_defined_witness :
  AssignRemovePage.get (Examples.page_view [] false) (Examples.unshown [])
  = (Raise NotImplementedError,
     {| world := [];
        self := {| AssignRemovePage.unselected_list := None;
                   AssignRemovePage.selected_list := None |};
        trace := [Called "left_list" []] |}).
Proof.
  apply (proj1 (left_list_has_to_be_defined (Examples.page_view [] false)
                  (Examples.unshown []) eq_refl)).
Defined.


(** ** The extra data of an instance *)

Section ExtraData.
Import ModelForm.
Context {W Form Obj Value Ctx R Queryset : Type}.
Variable v : view W Form Obj Value Ctx R.

(** Reading an attribute of an object, with the law that ties it to
    [setattr]. *)
Variable getattr : Obj -> string -> option Value.
Hypothesis getattr_setattr :
  forall obj key value name,
    getattr (setattr v obj key value) name
    = if String.eqb key name then Some value else getattr obj name.

Lemma getattr_after_extra_data (data : dict Value) :
  forall obj name,
    getattr (fold_left (fun o item => setattr v o (fst item) (snd item))
                       data obj) name
    = match dict_of_pairs_get data name with
      | Some value => Some value
      | None => getattr obj name
      end.
Proof.
  induction data as [|[key value] data IH]; intros obj name; simpl.
  - reflexivity.
  - rewrite IH. destruct (dict_of_pairs_get data name); [reflexivity|].
    rewrite getattr_setattr. now destruct (String.eqb key name).
Qed.

(** X19: the object that is saved, and the object that the edit view
    looks up, have every attribute named in the extra data of the view
    set to the value given there, and every other attribute as the form,
    or the parent class, gave it. *)
Theorem extra_data_is_set_on_the_object
    (method : ext W (dict Value)) :
  get_instance_extra_data v = Some method ->
  (forall (form : Form) (s s1 : state W (option Obj)) obj w1 data w2
          saved save_extra_data,
     form_save v form (world s) = (Ret obj, w1) ->
     method w1 = (Ret data, w2) ->
     unsaved_object v form s = (Ret (saved, save_extra_data), s1) ->
     self s1 = Some saved
     /\ forall name,
          getattr saved name
          = match dict_of_pairs_get data name with
            | Some value => Some value
            | None => getattr obj name
            end)
  /\ (forall (super_get_object : option Queryset -> ext W Obj) queryset
             (s : state W (option Obj)) obj w1 data w2,
        super_get_object queryset (world s) = (Ret obj, w1) ->
        method w1 = (Ret data, w2) ->
        exists found,
          EditObject.get_object v super_get_object queryset s
          = (Ret found,
             {| world := w2; self := self s;
                trace := trace s ++ [Called "super().get_object" [];
                                     Called "get_instance_extra_data" []] |})
          /\ forall name,
               getattr found name
               = match dict_of_pairs_get data name with
                 | Some value => Some value
                 | None => getattr obj name
                 end).
Proof.
  intros Hm. split.
  - intros form s s1 obj w1 data w2 saved save_extra_data Hf Hd.
    unfold unsaved_object. rewrite Hm. run. rewrite Hf. simpl.
    rewrite Hd. simpl.
    destruct (get_save_extra_data v) as [extra|]; simpl.
    + destruct (extra w2) as [[kwargs|e] w3]; simpl; [|discriminate].
      intros H. inversion H; subst; simpl.
      split; [reflexivity | intros name; apply getattr_after_extra_data].
    + intros H. inversion H; subst; simpl.
      split; [reflexivity | intros name; apply getattr_after_extra_data].
  - intros super_get_object queryset s obj w1 data w2 Ho Hd.
    eexists. split.
    + unfold EditObject.get_object. rewrite Hm. run. rewrite Ho. simpl.
      rewrite Hd. simpl. repeat rewrite <- app_assoc. reflexivity.
    + intros name. apply getattr_after_extra_data.
Qed.
End ExtraData.

Lemma extra_data_is_set_on_the_object_witness :
  let form := [("label", "invoices"); ("owner", "guest")] in
  exists saved s1,
    ModelForm.unsaved_object Examples.owned_form_view form
      {| world := tt; self := None; trace := [] |}
    = (Ret (saved, []), s1)
    /\ dict_get saved "owner" = Some "admin"
    /\ dict_get saved "label" = Some "invoices".
Proof.
  intros form. eexists _, _. split; [reflexivity|].
  destruct (proj1 (extra_data_is_set_on_the_object
                     (Queryset := unit) Examples.owned_form_view
                     (@dict_get string)
                     (fun obj key value name => dict_get_set obj key value name)
                     eq_refl)
              form {| world := tt; self := None; trace := [] |} _ form tt
              [("owner", "admin")] tt _ [] eq_refl eq_refl eq_refl)
    as (_ & Hattr).
  split; [exact (Hattr "owner") | exact (Hattr "label")].
Defined.


(** ** How often the items are asked for *)

Section ItemsAgain.
Import AssignRemoveView.
Context {W Obj Form : Type}.
Variable v : view W Obj Form.
Variable items_function : ext W (items (grouped v)).
Variable action_function : selection_obj Obj -> ext W unit.

#[local] Abbreviation transfer_one :=
  (transfer v items_function action_function).

(** The body of the loop asks for the items once, however it ends. *)
Lemma transfer_asks_for_the_items (s : state W unit) (selection : string) :
  calls_of "items_function" (trace (snd (transfer_one selection s)))
  = calls_of "items_function" (trace s) ++ [[]].
Proof.
  unfold transfer, get_flat_list, get_selection_obj, try_except,
    try_except_else, bind, call, raise, ret, flash, log.
  destruct (items_function (world s)) as [[choices|e] w1]; simpl;
    [|rewrite calls_of_app; reflexivity].
  destruct (dict_of_pairs_get (flatten (grouped v) choices) selection)
    as [label|]; simpl; [|rewrite calls_of_app; reflexivity].
  destruct (decode_content_type v).
  - destruct (split "," selection) as [|model [|pk [|part parts]]]; simpl;
      try (rewrite calls_of_app; reflexivity).
    destruct (get_object_for_this_type v model pk w1) as [[obj|e] w2]; simpl;
      [|rewrite !calls_of_app; simpl; now rewrite app_nil_r].
    destruct (action_function (Object obj) w2) as [[[]|e] w3]; simpl;
      [rewrite !calls_of_app; simpl; now rewrite !app_nil_r|].
    destruct (is_Exception e); [destruct (DEBUG v)|]; simpl;
      rewrite !calls_of_app; simpl; now rewrite !app_nil_r.
  - simpl.
    destruct (action_function (Key selection) w1) as [[[]|e] w3]; simpl;
      [rewrite !calls_of_app; simpl; now rewrite !app_nil_r|].
    destruct (is_Exception e); [destruct (DEBUG v)|]; simpl;
      rewrite !calls_of_app; simpl; now rewrite !app_nil_r.
Qed.

(** The loop asks for the items once for every selection it starts
    on. *)
Lemma for_each_transfer_asks_for_the_items (selections : list string) :
  forall (s0 : state W unit) r s',
    for_each selections transfer_one s0 = (r, s') ->
    exists k,
      calls_of "items_function" (trace s')
      = calls_of "items_function" (trace s0) ++ repeat [] k
      /\ k <= length selections
      /\ match r with
         | Ret _ => k = length selections
         | Raise e =>
             exists pre selection post s1,
               selections = pre ++ selection :: post
               /\ k = S (length pre)
               /\ for_each pre transfer_one s0 = (Ret tt, s1)
               /\ transfer_one selection s1 = (Raise e, s')
         end.
Proof.
  induction selections as [|selection selections IH]; intros s0 r s'; simpl.
  - unfold ret. intros H. injection H as <- <-.
    exists 0. simpl. rewrite app_nil_r. auto.
  - unfold bind at 1.
    pose proof (transfer_asks_for_the_items s0 selection) as Hone.
    destruct (transfer_one selection s0) as [[[]|e] s1] eqn:E; simpl in Hone.
    + intros Hrest. destruct (IH _ _ _ Hrest) as (k & Hcalls & Hk & Hr).
      exists (S k). split; [|split].
      * rewrite Hcalls, Hone, <- app_assoc. reflexivity.
      * lia.
      * destruct r as [[]|e].
        -- now rewrite Hr.
        -- destruct Hr as (pre & sel & post & s2 & -> & -> & Hpre & Hsel).
           exists (selection :: pre), sel, post, s2.
           split; [reflexivity|]. split; [reflexivity|].
           split; [|exact Hsel].
           simpl. unfold bind. rewrite E. exact Hpre.
    + intros H. injection H as <- <-.
      exists 1. split; [exact Hone|]. split; [lia|].
      exists [], selection, selections, s0. auto.
Qed.

(** X20: once the submitted form is valid, [process_form] asks for the
    items of the list once to build the form and once more for every
    selection it starts on, whatever the items function, the decoding
    and the action do: [1 + n] times when it returns, for the [n]
    selections of the form, and [1 + k] times when it raises at the
    [k]-th selection, the ones before it transferred. *)
Theorem items_are_asked_for_again_for_every_selection (prefix : string)
    (s : state W unit) choices w1 form w2 w3 r s' :
  existsb (String.eqb (prefix ++ "-submit")%string) (POST_keys v) = true ->
  items_function (world s) = (Ret choices, w1) ->
  ChoiceForm v choices prefix w1 = (Ret form, w2) ->
  is_valid v form w2 = (Ret true, w3) ->
  process_form v prefix items_function action_function s = (r, s') ->
  let selections := cleaned_data_selection v form in
  let validated :=
    {| world := w3; self := self s;
       trace := trace s ++ [Called "items_function" [];
                            Called "ChoiceForm" [prefix];
                            Called "is_valid" [prefix]] |} in
  exists k,
    calls_of "items_function" (trace s')
    = calls_of "items_function" (trace s) ++ repeat [] (S k)
    /\ k <= length selections
    /\ match r with
       | Ret _ => k = length selections
       | Raise e =>
           exists pre selection post s0,
             selections = pre ++ selection :: post
             /\ k = S (length pre)
             /\ for_each pre (transfer v items_function action_function)
                  validated
                = (Ret tt, s0)
             /\ transfer v items_function action_function selection s0
                = (Raise e, s')
       end.
Proof.
  intros Hkey Hi Hf Hv Hrun selections validated.
  unfold process_form in Hrun. rewrite Hkey in Hrun.
  unfold bind, call in Hrun.
  rewrite Hi in Hrun. simpl in Hrun. rewrite Hf in Hrun. simpl in Hrun.
  rewrite Hv in Hrun. simpl in Hrun.
  rewrite <- !app_assoc in Hrun. simpl in Hrun.
  fold selections validated in Hrun.
  destruct (for_each_transfer_asks_for_the_items _ _ Hrun)
    as (k & Hcalls & Hk & Hr).
  exists k. split; [|split; [exact Hk | exact Hr]].
  rewrite Hcalls. subst validated. simpl.
  rewrite calls_of_app. simpl. rewrite <- app_assoc. reflexivity.
Qed.
End ItemsAgain.

Lemma items_are_asked_for_again_for_every_selection_witness :
  (exists s',
     AssignRemoveView.process_form (Examples.selecting_view ["a"; "b"; "c"])
       "left_list" Examples.remaining_list Examples.add (Examples.table [] tt)
     = (Ret tt, s')
     /\ calls_of "items_function" (trace s') = [[]; []; []; []])
  /\ (exists s',
        AssignRemoveView.process_form (Examples.selecting_view ["a"; "a"; "c"])
          "left_list" Examples.remaining_list Examples.add
          (Examples.table [] tt)
        = (Raise (KeyError "a"), s')
        /\ calls_of "items_function" (trace s') = [[]; []; []]).
Proof.
  split.
  - eexists. split; [reflexivity|].
    destruct (items_are_asked_for_again_for_every_selection
                (Examples.selecting_view ["a"; "b"; "c"])
                Examples.remaining_list Examples.add "left_list"
                (Examples.table [] tt) (w1 := []) (w2 := []) (w3 := [])
                eq_refl eq_refl eq_refl eq_refl eq_refl)
      as (k & Hcalls & _ & Hk).
    simpl in Hk. subst k. exact Hcalls.
  - eexists. split; [reflexivity|].
    destruct (items_are_asked_for_again_for_every_selection
                (Examples.selecting_view ["a"; "a"; "c"])
                Examples.remaining_list Examples.add "left_list"
                (Examples.table [] tt) (w1 := []) (w2 := []) (w3 := [])
                eq_refl eq_refl eq_refl eq_refl eq_refl)
      as (k & Hcalls & _ & pre & selection & post & s0 & Hsel & Hk & Hpre
          & Hraise).
    destruct pre as [|p0 [|p1 [|p2 pre]]].
    + injection Hsel as <- <-. injection Hpre as <-. discriminate Hraise.
    + subst k. exact Hcalls.
    + injection Hsel as <- <- <- <-. discriminate Hpre.
    + destruct pre; discriminate Hsel.
Defined.
